(** * Arcade cabinet template generators: mesh kernel and scene assembly

    A shallow embedding of the four Blender scripts
      Resources/create_cabinet_template.py   (Upright)
      Resources/create_cocktail_template.py  (Cocktail)
      Resources/create_driving_template.py   (Driving)
      Resources/create_lightgun_template.py  (LightGun)
    and the properties their specification states about them.

    Conventions of the embedding.
    - The numbers written in the scripts are kept as exact rationals ([Q]).
      Positions, offsets and axes, which no statement of the scripts tests,
      are computed on them.
    - Every test a script makes on a computed length or component
      ([length < 0.001], [abs(...) > 0.999], [abs(...) > 0.9],
      [rot_axis.length > 0.001]) is taken as the program takes it: on Python
      floats (IEEE 754 binary64) and on the single-precision components of
      a [mathutils.Vector], with the operations of the Standard Library's
      [SpecFloat].
    - [bmesh] vertices are numbered in creation order; a face is the list of
      the numbers of its vertices.  [bm.faces.new] raises [TypeError] and
      [ValueError] as Blender does.
    - The Blender scene is an explicit store of objects addressed by handles;
      scripts are written in a state-and-exception monad over it.  Its
      objects are the visible, selectable objects of the view layer, those
      the operators act on.  Scale and Euler rotation are not part of the
      model; [transform_apply] is, for what it does to the location and the
      rotation of the selected objects. *)

From Stdlib Require Import QArith Lqa List String Ascii Bool Arith Lia Permutation.
From Stdlib Require Import ZArith DecimalString.
From Stdlib Require SpecFloat.
Import ListNotations.

Open Scope string_scope.
Open Scope list_scope.
Open Scope Q_scope.

(** ** Exceptions and the state-and-exception monad *)

Inductive exn : Type :=
| TypeError
| ValueError
| IndexError
| AttributeError
| ReferenceError
| RuntimeError.

Inductive result (A : Type) : Type :=
| Ok (a : A)
| Raise (e : exn).
Arguments Ok {A} a.
Arguments Raise {A} e.

Definition is_ok {A} (r : result A) : bool :=
  match r with Ok _ => true | Raise _ => false end.

Definition M (St A : Type) : Type := St -> result (A * St).

Definition ret {St A} (a : A) : M St A := fun s => Ok (a, s).

Definition bind {St A B} (m : M St A) (k : A -> M St B) : M St B :=
  fun s => match m s with
           | Ok (a, s') => k a s'
           | Raise e => Raise e
           end.

Definition raise {St A} (e : exn) : M St A := fun _ => Raise e.

Definition modify {St} (f : St -> St) : M St unit := fun s => Ok (tt, f s).

Declare Scope monad_scope.
Delimit Scope monad_scope with monad.
Notation "x <- m ;; k" := (bind m (fun x => k))
  (at level 61, m at next level, right associativity) : monad_scope.
Notation "m ;; k" := (bind m (fun _ => k))
  (at level 61, right associativity) : monad_scope.
Open Scope monad_scope.

(** [for x in l: body] collecting the values (a list comprehension). *)
Fixpoint forM {St A B} (l : list A) (f : A -> M St B) : M St (list B) :=
  match l with
  | [] => ret []
  | x :: l' => y <- f x ;; ys <- forM l' f ;; ret (y :: ys)
  end.

(** [for x in l: body] for its effect only. *)
Fixpoint forM_ {St A} (l : list A) (f : A -> M St unit) : M St unit :=
  match l with
  | [] => ret tt
  | x :: l' => f x ;; forM_ l' f
  end.

(** [l[i]] for a Python list: [IndexError] out of range. *)
Definition index {St A} (l : list A) (i : nat) : M St A :=
  match nth_error l i with
  | Some a => ret a
  | None => raise IndexError
  end.

(** ** Python floats and C floats *)

Module Float.

(** A floating-point number: a zero, an infinity, NaN, or a sign, a
    mantissa and an exponent. *)
Definition float : Type := SpecFloat.spec_float.

(** A number of one format in the format of precision [prec] and exponent
    bound [emax], rounded to nearest, ties to even. *)
Definition round (prec emax : Z) (x : float) : float :=
  match x with
  | SpecFloat.S754_finite s m e =>
      SpecFloat.binary_normalize prec emax (SpecFloat.cond_Zopp s (Zpos m)) e s
  | _ => x
  end.

(** The number of the format nearest to the rational [q]: the quotient of
    its numerator by its denominator, which [SFdiv] rounds once, from the
    exact integers. *)
Definition of_Q (prec emax : Z) (q : Q) : float :=
  match Qnum (Qred q) with
  | Z0 => SpecFloat.S754_zero false
  | Zpos n =>
      SpecFloat.SFdiv prec emax (SpecFloat.S754_finite false n 0)
                      (SpecFloat.S754_finite false (Qden (Qred q)) 0)
  | Zneg n =>
      SpecFloat.SFdiv prec emax (SpecFloat.S754_finite true n 0)
                      (SpecFloat.S754_finite false (Qden (Qred q)) 0)
  end.

(** A number written in a script, as the Python float it is (binary64). *)
Definition py_float (q : Q) : float := of_Q 53 1024 q.

(** [(float)x] and [(double)x] of C; the second is exact. *)
Definition to_single (x : float) : float := round 24 128 x.
Definition to_double (x : float) : float := round 53 1024 x.

(** Double precision: [x + y], [x * y], [sqrt(x)]. *)
Definition add_d : float -> float -> float := SpecFloat.SFadd 53 1024.
Definition mul_d : float -> float -> float := SpecFloat.SFmul 53 1024.
Definition sqrt_d : float -> float := SpecFloat.SFsqrt 53 1024.

(** Single precision: [x - y], [x * y], [x / y]. *)
Definition sub_s : float -> float -> float := SpecFloat.SFsub 24 128.
Definition mul_s : float -> float -> float := SpecFloat.SFmul 24 128.
Definition div_s : float -> float -> float := SpecFloat.SFdiv 24 128.

(** [x < y], false when either is NaN, and [abs(x)]. *)
Definition ltb (x y : float) : bool := SpecFloat.SFltb x y.
Definition fabs (x : float) : float := SpecFloat.SFabs x.

Definition zero : float := SpecFloat.S754_zero false.
Definition one_s : float := of_Q 24 128 1.


End Float.
Import Float.

(** ** mathutils.Vector *)

Module Vector.

Record Vec3 : Type := mkVec { vx : Q; vy : Q; vz : Q }.

Definition add (a b : Vec3) : Vec3 :=
  mkVec (vx a + vx b) (vy a + vy b) (vz a + vz b).

Definition sub (a b : Vec3) : Vec3 :=
  mkVec (vx a - vx b) (vy a - vy b) (vz a - vz b).

Definition scale (a : Vec3) (k : Q) : Vec3 :=
  mkVec (vx a * k) (vy a * k) (vz a * k).

Definition dot (a b : Vec3) : Q :=
  vx a * vx b + vy a * vy b + vz a * vz b.

Definition cross (a b : Vec3) : Vec3 :=
  mkVec (vy a * vz b - vz a * vy b)
        (vz a * vx b - vx a * vz b)
        (vx a * vy b - vy a * vx b).


Definition Qltb (a b : Q) : bool := negb (Qle_bool b a).

Definition X : Vec3 := mkVec 1 0 0.
Definition Y : Vec3 := mkVec 0 1 0.
Definition Z : Vec3 := mkVec 0 0 1.

(** A [mathutils.Vector] as the program holds it: three C floats. *)
Record FVec : Type := mkFVec { fx : float; fy : float; fz : float }.

(** [Vector(p)] for a tuple [p] of Python numbers. *)
Definition Vector (p : Vec3) : FVec :=
  mkFVec (to_single (py_float (vx p))) (to_single (py_float (vy p)))
         (to_single (py_float (vz p))).

(** [a - b] on vectors. *)
Definition fsub (a b : FVec) : FVec :=
  mkFVec (sub_s (fx a) (fx b)) (sub_s (fy a) (fy b)) (sub_s (fz a) (fz b)).

(** [dot_vn_vn] of Blender's math_vector.c, which [a.dot(b)] and [a.length]
    call: the products in single precision, summed in double precision from
    the last component to the first. *)
Definition dot_vn_vn (a b : FVec) : float :=
  add_d (add_d (add_d zero (to_double (mul_s (fz a) (fz b))))
               (to_double (mul_s (fy a) (fy b))))
        (to_double (mul_s (fx a) (fx b))).

(** [len_squared_vn], which [normalize_vn] calls: the squares in double
    precision. *)
Definition len_squared_vn (a : FVec) : float :=
  add_d (add_d (add_d zero (mul_d (to_double (fz a)) (to_double (fz a))))
               (mul_d (to_double (fy a)) (to_double (fy a))))
        (mul_d (to_double (fx a)) (to_double (fx a))).

(** [a.length], a Python float. *)
Definition flength (a : FVec) : float := sqrt_d (dot_vn_vn a a).

(** [a.normalize()], that is [normalize_vn]: the components times
    [1.0f / (float)sqrt(d)] when the squared length [d] exceeds [1.0e-35],
    and the null vector otherwise. *)
Definition normalize (a : FVec) : FVec :=
  let d := len_squared_vn a in
  if ltb (py_float (1 # 100000000000000000000000000000000000)) d then
    let f := div_s one_s (to_single (sqrt_d d)) in
    mkFVec (mul_s (fx a) f) (mul_s (fy a) f) (mul_s (fz a) f)
  else mkFVec zero zero zero.

(** [a.cross(b)], that is [cross_v3_v3v3]. *)
Definition fcross (a b : FVec) : FVec :=
  mkFVec (sub_s (mul_s (fy a) (fz b)) (mul_s (fz a) (fy b)))
         (sub_s (mul_s (fz a) (fx b)) (mul_s (fx a) (fz b)))
         (sub_s (mul_s (fx a) (fy b)) (mul_s (fy a) (fx b))).

(** [a.length < e] and [a.length > e] for a number [e] written in the
    script. *)
Definition length_lt (a : FVec) (e : Q) : bool := ltb (flength a) (py_float e).
Definition length_gt (a : FVec) (e : Q) : bool := ltb (py_float e) (flength a).

(** [abs(x) > c] for a Python float [x] and a number [c] written in the
    script. *)
Definition abs_gt (x : float) (c : Q) : bool := ltb (py_float c) (fabs x).

End Vector.
Import Vector.

(** ** bmesh: the mesh builder *)

Module BMesh.

Definition BMVert : Type := nat.
Definition Face : Type := list BMVert.

Record Mesh : Type := mkMesh { verts : list Vec3; faces : list Face }.

(** [bmesh.new()] *)
Definition new : Mesh := mkMesh [] [].

Definition BM (A : Type) : Type := M Mesh A.

(** [bm.verts.new(co)]: a new vertex, whatever its position. *)
Definition verts_new (co : Vec3) : BM BMVert :=
  fun bm => Ok (List.length (verts bm), mkMesh (verts bm ++ [co]) (faces bm)).

Definition mem (v : BMVert) (f : Face) : bool := existsb (Nat.eqb v) f.

Fixpoint has_dup (f : Face) : bool :=
  match f with
  | [] => false
  | v :: f' => mem v f' || has_dup f'
  end.

(** Two loops without repeated vertex use the same vertices. *)
Definition same_verts (f g : Face) : bool :=
  Nat.eqb (List.length f) (List.length g) && forallb (fun v => mem v g) f.

(** [bm.faces.new(vs)]: Blender raises [TypeError] for a sequence of fewer
    than three vertices, and [ValueError] for a vertex that is not of this
    mesh, for a vertex used twice, and when a face on the same vertices
    exists already. *)
Definition faces_new (vs : Face) : BM unit :=
  fun bm =>
    if Nat.ltb (List.length vs) 3 then Raise TypeError
    else if negb (forallb (fun v => Nat.ltb v (List.length (verts bm))) vs) then
      Raise ValueError
    else if has_dup vs then Raise ValueError
    else if existsb (same_verts vs) (faces bm) then Raise ValueError
    else Ok (tt, mkMesh (verts bm) (faces bm ++ [vs])).

(** [mesh = bpy.data.meshes.new(name); bm = bmesh.new(); ...;
    bm.to_mesh(mesh); bm.free()] around a construction. *)
Definition build (m : BM unit) : result Mesh :=
  match m new with
  | Ok (_, bm) => Ok bm
  | Raise e => Raise e
  end.

End BMesh.
Import BMesh.

(** ** Profile extrusion (side panels) *)

(** The body shared, statement for statement, by [create_side_panel]
    (Upright), [create_side_panel_driving] and [create_side_panel_lightgun]:
    the front ring at [y_front], the back ring at [y_back], the two caps and
    the side quads.  The three scripts differ in the profile and in the two
    offsets only. *)
Definition extrude_profile (profile_2d : list (Q * Q)) (y_front y_back : Q)
  : BM unit :=
  front_verts <- forM profile_2d (fun p => verts_new (mkVec (fst p) y_front (snd p))) ;;
  back_verts <- forM profile_2d (fun p => verts_new (mkVec (fst p) y_back (snd p))) ;;
  faces_new front_verts ;;
  faces_new (rev back_verts) ;;
  let n := List.length profile_2d in
  forM_ (seq 0 n) (fun i =>
    let j := ((i + 1) mod n)%nat in
    fi <- index front_verts i ;;
    fj <- index front_verts j ;;
    bj <- index back_verts j ;;
    bi <- index back_verts i ;;
    faces_new [fi; fj; bj; bi]).

(** ** The host scene (bpy), as far as the scripts use it *)

Module Host.

Definition handle : Type := nat.

Inductive PrimKind : Type := Cube | Plane | Cylinder | Torus | UVSphere.

(** The geometry an object carries: host primitives and bmesh meshes as
    they were made, one piece per object that was joined into it; none for
    an empty.  Where a join or an applied transform has put a piece is not
    recorded. *)
Inductive Geometry : Type :=
| Prim (k : PrimKind)
| Built (m : Mesh).

(** [obj_location] is [obj.location].  [obj_axis] is the axis of the
    AXIS_ANGLE rotation of the object, read on exact values and up to a
    positive factor; [None] when the object has no such rotation (none was
    given, or it was applied to the data). *)
Record Object : Type := mkObject {
  obj_id : handle;
  obj_name : string;
  obj_parent : option handle;
  obj_location : Vec3;
  obj_axis : option Vec3;
  obj_data : list Geometry
}.

Record Scene : Type := mkScene {
  objects : list Object;
  active : option handle;
  selected : list handle
}.

Definition Build (A : Type) : Type := M Scene A.

(** A handle no live object has.  A script never follows the handle of an
    object that was deleted or joined away. *)
Definition fresh (objs : list Object) : handle :=
  fold_right (fun o m => Nat.max (S (obj_id o)) m) 0%nat objs.

Definition is_selected (s : Scene) (o : Object) : bool :=
  existsb (Nat.eqb (obj_id o)) (selected s).

(** Blender keeps object names unique: a name in use gets the first free
    suffix .001, .002, ... *)
Definition digit (d : nat) : string :=
  String (ascii_of_nat (48 + d)) EmptyString.

Definition suffix (k : nat) : string :=
  String.append "."
    (String.append (digit ((k / 100) mod 10))
       (String.append (digit ((k / 10) mod 10)) (digit (k mod 10)))).

Definition name_taken (objs : list Object) (n : string) : bool :=
  existsb (fun o => String.eqb (obj_name o) n) objs.

Fixpoint first_free (objs : list Object) (base : string) (k fuel : nat) : string :=
  match fuel with
  | O => String.append base (suffix k)
  | S fuel' =>
      if name_taken objs (String.append base (suffix k))
      then first_free objs base (S k) fuel'
      else String.append base (suffix k)
  end.

Definition unique_name (objs : list Object) (n : string) : string :=
  if name_taken objs n then first_free objs n 1 998 else n.

(** A new object of the scene; as after every [bpy.ops] add operator it is
    the active object and the only selected one. *)
Definition add_object (name : string) (data : list Geometry) (location : Vec3)
  : Build unit :=
  fun s =>
    let h := fresh (objects s) in
    let o := mkObject h (unique_name (objects s) name) None location None data in
    Ok (tt, mkScene (objects s ++ [o]) (Some h) [h]).

Definition empty_add (location : Vec3) : Build unit :=
  add_object "Empty" [] location.
Definition primitive_cube_add (location : Vec3) : Build unit :=
  add_object "Cube" [Prim Cube] location.
Definition primitive_plane_add (location : Vec3) : Build unit :=
  add_object "Plane" [Prim Plane] location.
Definition primitive_cylinder_add (location : Vec3) : Build unit :=
  add_object "Cylinder" [Prim Cylinder] location.
Definition primitive_torus_add (location : Vec3) : Build unit :=
  add_object "Torus" [Prim Torus] location.
Definition primitive_uv_sphere_add (location : Vec3) : Build unit :=
  add_object "Sphere" [Prim UVSphere] location.

(** [obj = bpy.data.objects.new(name, mesh)] followed by
    [bpy.context.collection.objects.link(obj)]: the object joins the scene
    at the origin; active object and selection stay as they are. *)
Definition objects_new_link (name : string) (mesh : Mesh) : Build handle :=
  fun s =>
    let h := fresh (objects s) in
    let o := mkObject h (unique_name (objects s) name) None (mkVec 0 0 0) None
               [Built mesh] in
    Ok (h, mkScene (objects s ++ [o]) (active s) (selected s)).

(** [bpy.context.active_object]; the scripts use its attributes at once, so
    [None] is an [AttributeError]. *)
Definition active_object : Build handle :=
  fun s => match active s with
           | Some h => Ok (h, s)
           | None => Raise AttributeError
           end.

Definition is_live (objs : list Object) (h : handle) : bool :=
  existsb (fun o => Nat.eqb (obj_id o) h) objs.

(** An attribute assignment [obj.attr = v]. *)
Definition update (h : handle) (f : list Object -> Object -> Object) : Build unit :=
  fun s =>
    if is_live (objects s) h then
      Ok (tt, mkScene
                (map (fun o => if Nat.eqb (obj_id o) h then f (objects s) o else o)
                     (objects s))
                (active s) (selected s))
    else Raise ReferenceError.

Definition set_name (h : handle) (n : string) : Build unit :=
  update h (fun objs o =>
    let others := filter (fun o' => negb (Nat.eqb (obj_id o') h)) objs in
    mkObject (obj_id o) (unique_name others n) (obj_parent o) (obj_location o)
             (obj_axis o) (obj_data o)).

Definition set_parent (h parent : handle) : Build unit :=
  update h (fun _ o =>
    mkObject (obj_id o) (obj_name o) (Some parent) (obj_location o)
             (obj_axis o) (obj_data o)).

Definition set_location (h : handle) (l : Vec3) : Build unit :=
  update h (fun _ o =>
    mkObject (obj_id o) (obj_name o) (obj_parent o) l (obj_axis o) (obj_data o)).

(** [obj.rotation_mode = 'AXIS_ANGLE'; obj.rotation_axis_angle = (a, x, y, z)] *)
Definition set_rotation_axis (h : handle) (axis : Vec3) : Build unit :=
  update h (fun _ o =>
    mkObject (obj_id o) (obj_name o) (obj_parent o) (obj_location o)
             (Some axis) (obj_data o)).

(** [bpy.ops.object.select_all(action='SELECT')]: every object of the
    model, all of them visible and selectable, is selected.  The scene is
    in object mode, as a script run in the background finds it, so the
    operators can run. *)
Definition select_all_select : Build unit :=
  modify (fun s => mkScene (objects s) (active s) (map obj_id (objects s))).

(** [bpy.ops.object.select_all(action='DESELECT')] *)
Definition select_all_deselect : Build unit :=
  modify (fun s => mkScene (objects s) (active s) []).

(** [obj.select_set(True)] *)
Definition select_set (h : handle) : Build unit :=
  fun s =>
    if is_live (objects s) h
    then Ok (tt, mkScene (objects s) (active s) (selected s ++ [h]))
    else Raise ReferenceError.

(** [bpy.context.view_layer.objects.active = obj] *)
Definition set_active (h : handle) : Build unit :=
  fun s =>
    if is_live (objects s) h
    then Ok (tt, mkScene (objects s) (Some h) (selected s))
    else Raise ReferenceError.

(** [bpy.ops.object.delete()]: the selected objects leave the scene; an
    active object that left is active no more. *)
Definition object_delete : Build unit :=
  modify (fun s =>
    mkScene (filter (fun o => negb (is_selected s o)) (objects s))
            (match active s with
             | Some a =>
                 if is_live (filter (fun o => negb (is_selected s o)) (objects s)) a
                 then Some a else None
             | None => None
             end)
            []).

(** [bpy.ops.object.join()]: the geometry of the selected objects is merged
    into the active object, which alone remains. *)
Definition object_join : Build unit :=
  fun s =>
    match active s with
    | None => Raise RuntimeError
    | Some a =>
        let gone o := is_selected s o && negb (Nat.eqb (obj_id o) a) in
        let merged := List.concat (map obj_data (filter gone (objects s))) in
        let keep o :=
          if Nat.eqb (obj_id o) a then
            mkObject (obj_id o) (obj_name o) (obj_parent o) (obj_location o)
                     (obj_axis o) (obj_data o ++ merged)
          else o in
        Ok (tt, mkScene (map keep (filter (fun o => negb (gone o)) (objects s)))
                        (Some a) [a])
    end.

(** [bpy.ops.object.transform_apply(...)].  Every call of the scripts
    names [scale], [rotation] or both and leaves the other options at their
    default, which is [True] for each of [location], [rotation] and [scale]
    (Blender 2.80 and later): the transform of every selected object is
    applied to its data, and the object is left at the origin and without
    rotation. *)
Definition applied (o : Object) : Object :=
  mkObject (obj_id o) (obj_name o) (obj_parent o) (mkVec 0 0 0) None (obj_data o).

Definition transform_apply : Build unit :=
  modify (fun s =>
    mkScene (map (fun o => if is_selected s o then applied o else o) (objects s))
            (active s) (selected s)).

(** A [bmesh] construction inside a script: its exception is the script's. *)
Definition bmesh (m : BM unit) : Build Mesh :=
  fun s => match BMesh.build m with
           | Ok mesh => Ok (mesh, s)
           | Raise e => Raise e
           end.

(** The same [clear_scene] opens each of the four scripts (the purge of
    orphan mesh data has no counterpart here: a mesh lives in its object). *)
Definition clear_scene : Build unit :=
  select_all_select ;;
  object_delete.

Definition names (s : Scene) : list string := map obj_name (objects s).

Definition find_by_name (s : Scene) (n : string) : list Object :=
  filter (fun o => String.eqb (obj_name o) n) (objects s).

Definition find_by_id (s : Scene) (h : handle) : option Object :=
  find (fun o => Nat.eqb (obj_id o) h) (objects s).

(** The end of the parent chain of [h]: the handle of the first ancestor
    (or [h] itself) without parent, within [fuel] steps. *)
Fixpoint chain_end (s : Scene) (fuel : nat) (h : handle) : option handle :=
  match find_by_id s h with
  | None => None
  | Some o =>
      match obj_parent o with
      | None => Some h
      | Some p =>
          match fuel with
          | O => None
          | S fuel' => chain_end s fuel' p
          end
      end
  end.

End Host.
Import Host.

(** ** Cutout panel (bezel): the sixteen faces *)

(** The face statements of [create_bezel_with_cutout], the same in the four
    scripts: four ring quads on the front, four on the back, four outer
    walls, four walls of the cutout. *)
Definition bezel_faces (v1 v2 v3 v4 v5 v6 v7 v8 : BMVert)
                       (v1b v2b v3b v4b v5b v6b v7b v8b : BMVert) : BM unit :=
  faces_new [v1; v2; v6; v5] ;;
  faces_new [v2; v3; v7; v6] ;;
  faces_new [v3; v4; v8; v7] ;;
  faces_new [v4; v1; v5; v8] ;;
  faces_new [v5b; v6b; v2b; v1b] ;;
  faces_new [v6b; v7b; v3b; v2b] ;;
  faces_new [v7b; v8b; v4b; v3b] ;;
  faces_new [v8b; v5b; v1b; v4b] ;;
  faces_new [v1; v1b; v2b; v2] ;;
  faces_new [v2; v2b; v3b; v3] ;;
  faces_new [v3; v3b; v4b; v4] ;;
  faces_new [v4; v4b; v1b; v1] ;;
  faces_new [v5; v6; v6b; v5b] ;;
  faces_new [v6; v7; v7b; v6b] ;;
  faces_new [v7; v8; v8b; v7b] ;;
  faces_new [v8; v5; v5b; v8b].

(** The vertex and face statements of [create_bezel_with_cutout] of the
    Upright, Driving and LightGun scripts: the panel stands in the x-z
    plane, front at [y = -t], back at [y = t]. *)
Definition bezel_mesh_xz (hw hh chw chh t : Q) : BM unit :=
  v1 <- verts_new (mkVec (- hw) (- t) (- hh)) ;;
  v2 <- verts_new (mkVec hw (- t) (- hh)) ;;
  v3 <- verts_new (mkVec hw (- t) hh) ;;
  v4 <- verts_new (mkVec (- hw) (- t) hh) ;;
  v5 <- verts_new (mkVec (- chw) (- t) (- chh)) ;;
  v6 <- verts_new (mkVec chw (- t) (- chh)) ;;
  v7 <- verts_new (mkVec chw (- t) chh) ;;
  v8 <- verts_new (mkVec (- chw) (- t) chh) ;;
  v1b <- verts_new (mkVec (- hw) t (- hh)) ;;
  v2b <- verts_new (mkVec hw t (- hh)) ;;
  v3b <- verts_new (mkVec hw t hh) ;;
  v4b <- verts_new (mkVec (- hw) t hh) ;;
  v5b <- verts_new (mkVec (- chw) t (- chh)) ;;
  v6b <- verts_new (mkVec chw t (- chh)) ;;
  v7b <- verts_new (mkVec chw t chh) ;;
  v8b <- verts_new (mkVec (- chw) t chh) ;;
  bezel_faces v1 v2 v3 v4 v5 v6 v7 v8 v1b v2b v3b v4b v5b v6b v7b v8b.

(** The same for the Cocktail script: the panel lies in the x-y plane, top
    at [z = t], bottom at [z = -t]. *)
Definition bezel_mesh_xy (hw hh chw chh t : Q) : BM unit :=
  v1 <- verts_new (mkVec (- hw) (- hh) t) ;;
  v2 <- verts_new (mkVec hw (- hh) t) ;;
  v3 <- verts_new (mkVec hw hh t) ;;
  v4 <- verts_new (mkVec (- hw) hh t) ;;
  v5 <- verts_new (mkVec (- chw) (- chh) t) ;;
  v6 <- verts_new (mkVec chw (- chh) t) ;;
  v7 <- verts_new (mkVec chw chh t) ;;
  v8 <- verts_new (mkVec (- chw) chh t) ;;
  v1b <- verts_new (mkVec (- hw) (- hh) (- t)) ;;
  v2b <- verts_new (mkVec hw (- hh) (- t)) ;;
  v3b <- verts_new (mkVec hw hh (- t)) ;;
  v4b <- verts_new (mkVec (- hw) hh (- t)) ;;
  v5b <- verts_new (mkVec (- chw) (- chh) (- t)) ;;
  v6b <- verts_new (mkVec chw (- chh) (- t)) ;;
  v7b <- verts_new (mkVec chw chh (- t)) ;;
  v8b <- verts_new (mkVec (- chw) chh (- t)) ;;
  bezel_faces v1 v2 v3 v4 v5 v6 v7 v8 v1b v2b v3b v4b v5b v6b v7b v8b.

(** ** Path sweep with tubes (Cocktail, Driving, LightGun) *)

(** [direction], after [direction = Vector(p2) - Vector(p1)] and
    [direction.normalize()]. *)
Definition tube_direction (p1 p2 : Vec3) : FVec :=
  normalize (fsub (Vector p2) (Vector p1)).

(** [abs(direction.dot(up)) > 0.999] for [up = Vector((0, 0, 1))]. *)
Definition tube_steep (p1 p2 : Vec3) : bool :=
  abs_gt (dot_vn_vn (tube_direction p1 p2) (Vector Z)) 0.999.

(** [up], as [create_tube_segment] chooses it. *)
Definition tube_up (p1 p2 : Vec3) : Vec3 :=
  if tube_steep p1 p2 then X else Z.

(** [rot_axis.length > 0.001] for [rot_axis = up.cross(direction)]. *)
Definition tube_rot_axis_usable (p1 p2 : Vec3) : bool :=
  length_gt (fcross (Vector (tube_up p1 p2)) (tube_direction p1 p2)) 0.001.

(** The axis the cylinder is given, [up.cross(direction)], read on exact
    values and up to a positive factor. *)
Definition tube_rot_axis (p1 p2 : Vec3) : Vec3 :=
  cross (tube_up p1 p2) (sub p2 p1).

(** [create_tube_segment(p1, p2, r)], the same local function in the three
    scripts.  [None] is Python's [None]. *)
Definition create_tube_segment (p1 p2 : Vec3) (r : Q) : Build (option handle) :=
  let direction := fsub (Vector p2) (Vector p1) in
  if length_lt direction 0.001 then ret None
  else
    primitive_cylinder_add
      (mkVec ((vx p1 + vx p2) / 2) ((vy p1 + vy p2) / 2) ((vz p1 + vz p2) / 2)) ;;
    cyl <- active_object ;;
    (if tube_rot_axis_usable p1 p2
     then set_rotation_axis cyl (tube_rot_axis p1 p2)
     else ret tt) ;;
    ret (Some cyl).

(** [for i in range(len(path) - 1): seg = create_tube_segment(path[i],
    path[i+1], radius); if seg: segments.append(seg)], from the list
    [segments] collected so far. *)
Fixpoint sweep_loop (path : list Vec3) (radius : Q) (range : list nat)
                    (segments : list handle) : Build (list handle) :=
  match range with
  | [] => ret segments
  | i :: range' =>
      p1 <- index path i ;;
      p2 <- index path (i + 1) ;;
      seg <- create_tube_segment p1 p2 radius ;;
      sweep_loop path radius range'
        (match seg with
         | Some c => segments ++ [c]
         | None => segments
         end)
  end.

Definition sweep_path (path : list Vec3) (radius : Q) (segments : list handle)
  : Build (list handle) :=
  sweep_loop path radius (seq 0 (List.length path - 1)) segments.

(** [if segments: ... join ...; obj.name = "t-molding"; return obj] and
    [return None] otherwise. *)
Definition join_segments (segments : list handle) : Build (option handle) :=
  match segments with
  | [] => ret None
  | first :: _ =>
      select_all_deselect ;;
      forM_ segments select_set ;;
      set_active first ;;
      object_join ;;
      obj <- active_object ;;
      set_name obj "t-molding" ;;
      ret (Some obj)
  end.

(** [create_box(name, dimensions, location)] of the Cocktail, Driving and
    LightGun scripts. *)
Definition create_box (name : string) (dimensions location : Vec3) : Build handle :=
  primitive_cube_add location ;;
  obj <- active_object ;;
  set_name obj name ;;
  transform_apply ;;
  ret obj.

(** A primitive added, named and returned, as the scripts do in line:
    [bpy.ops.mesh.primitive_..._add(...); obj = bpy.context.active_object;
    obj.name = name].  The [transform_apply] that follows for all but the
    root is written where the script has it. *)
Definition named (add : Build unit) (name : string) : Build handle :=
  add ;;
  obj <- active_object ;;
  set_name obj name ;;
  ret obj.

(** [if t_molding: t_molding.parent = root] *)
Definition parent_if_some (o : option handle) (root : handle) : Build unit :=
  match o with
  | Some t_molding => set_parent t_molding root
  | None => ret tt
  end.

(** ** create_cabinet_template.py (Upright) *)

Module Upright.

Definition profile_2d : list (Q * Q) :=
  [ (0.0, 0.0); (0.0, 0.15); (-0.05, 0.20); (-0.05, 0.70); (-0.15, 0.85);
    (-0.15, 1.10); (-0.10, 1.20); (-0.05, 1.50); (-0.08, 1.65); (-0.10, 1.75);
    (-0.10, 1.90); (-0.05, 1.95); (-0.35, 1.95); (-0.40, 1.85); (-0.40, 0.0) ].

Definition thickness : Q := 0.02.

(** The profile after [if is_right: profile_2d = [(x, y) for x, y in
    profile_2d]]. *)
Definition side_profile (is_right : bool) : list (Q * Q) :=
  if is_right then map (fun '(x, y) => (x, y)) profile_2d else profile_2d.

(** The mesh statements of [create_side_panel]. *)
Definition side_panel_mesh (is_right : bool) : BM unit :=
  extrude_profile (side_profile is_right)
    (if is_right then thickness / 2 else - thickness / 2)
    (if is_right then - thickness / 2 else thickness / 2).

Definition side_panel_location (is_right : bool) : Vec3 :=
  let y_offset := if is_right then 0.25 else -0.25 in
  mkVec 0 y_offset 0.

Definition create_side_panel (name : string) (is_right : bool) : Build handle :=
  mesh <- bmesh (side_panel_mesh is_right) ;;
  obj <- objects_new_link name mesh ;;
  set_location obj (side_panel_location is_right) ;;
  ret obj.

Definition create_flat_panel (name : string) (width height thickness : Q)
                             (location : Vec3) : Build handle :=
  primitive_cube_add location ;;
  obj <- active_object ;;
  set_name obj name ;;
  transform_apply ;;
  ret obj.

(** The perpendicular half-extents [(perp1, perp2)] of [add_strip], chosen
    by [abs(direction.z) > 0.9] and [abs(direction.y) > 0.9] on the
    normalised direction. *)
Definition strip_frame (p1 p2 : Vec3) (w d : Q) : Vec3 * Vec3 :=
  let direction := normalize (fsub (Vector p2) (Vector p1)) in
  if abs_gt (to_double (fz direction)) 0.9
  then (scale X (w / 2), scale Y (d / 2))
  else if abs_gt (to_double (fy direction)) 0.9
  then (scale X (d / 2), scale Z (w / 2))
  else (scale Y (d / 2), scale Z (w / 2)).

Definition add_strip (p1 p2 : Vec3) (w d : Q) : BM unit :=
  let start := p1 in
  let end_ := p2 in
  let direction := fsub (Vector end_) (Vector start) in
  if length_lt direction 0.001 then ret tt
  else
    let perp1 := fst (strip_frame p1 p2 w d) in
    let perp2 := snd (strip_frame p1 p2 w d) in
    v0 <- verts_new (sub (sub start perp1) perp2) ;;
    v1 <- verts_new (sub (add start perp1) perp2) ;;
    v2 <- verts_new (add (add start perp1) perp2) ;;
    v3 <- verts_new (add (sub start perp1) perp2) ;;
    v4 <- verts_new (sub (sub end_ perp1) perp2) ;;
    v5 <- verts_new (sub (add end_ perp1) perp2) ;;
    v6 <- verts_new (add (add end_ perp1) perp2) ;;
    v7 <- verts_new (add (sub end_ perp1) perp2) ;;
    faces_new [v0; v1; v2; v3] ;;
    faces_new [v7; v6; v5; v4] ;;
    faces_new [v0; v4; v5; v1] ;;
    faces_new [v1; v5; v6; v2] ;;
    faces_new [v2; v6; v7; v3] ;;
    faces_new [v3; v7; v4; v0].

(** The five strips of [create_t_molding], as pairs of end points. *)
Definition strips : list (Vec3 * Vec3) :=
  [ (mkVec (-0.04) (-0.26) 0.02, mkVec (-0.04) (-0.26) 1.90);
    (mkVec (-0.04) 0.26 0.02, mkVec (-0.04) 0.26 1.90);
    (mkVec (-0.04) (-0.26) 0.02, mkVec (-0.04) 0.26 0.02);
    (mkVec (-0.08) (-0.26) 1.90, mkVec (-0.08) 0.26 1.90);
    (mkVec (-0.04) (-0.26) 0.70, mkVec (-0.04) 0.26 0.70) ].

Definition t_molding_mesh : BM unit :=
  let width := 0.012 in
  let depth := 0.008 in
  forM_ strips (fun s => add_strip (fst s) (snd s) width depth).

Definition create_t_molding : Build handle :=
  mesh <- bmesh t_molding_mesh ;;
  obj <- objects_new_link "t-molding" mesh ;;
  ret obj.

Definition bezel_mesh : BM unit :=
  let outer_width := 0.45 in
  let outer_height := 0.40 in
  let thickness := 0.01 in
  let cutout_width := 0.35 in
  let cutout_height := 0.28 in
  bezel_mesh_xz (outer_width / 2) (outer_height / 2)
                (cutout_width / 2) (cutout_height / 2) (thickness / 2).

Definition create_bezel_with_cutout : Build handle :=
  mesh <- bmesh bezel_mesh ;;
  obj <- objects_new_link "bezel" mesh ;;
  set_location obj (mkVec (-0.07) 0 1.35) ;;
  ret obj.

Definition create_screen : Build handle :=
  obj <- named (primitive_plane_add (mkVec (-0.06) 0 1.35)) "screen" ;;
  transform_apply ;;
  ret obj.

Definition cp_shell_mesh : BM unit :=
  let cp_width := 0.50 in
  let cp_depth := 0.18 in
  let cp_front_z := 0.90 in
  let cp_back_z := 0.75 in
  let cp_thickness := 0.03 in
  let hw := cp_width / 2 in
  v1 <- verts_new (mkVec (-0.04) (- hw) cp_front_z) ;;
  v2 <- verts_new (mkVec (-0.04) hw cp_front_z) ;;
  v3 <- verts_new (mkVec (-0.04 - cp_depth) hw cp_back_z) ;;
  v4 <- verts_new (mkVec (-0.04 - cp_depth) (- hw) cp_back_z) ;;
  v5 <- verts_new (mkVec (-0.04) (- hw) (cp_front_z - cp_thickness)) ;;
  v6 <- verts_new (mkVec (-0.04) hw (cp_front_z - cp_thickness)) ;;
  v7 <- verts_new (mkVec (-0.04 - cp_depth) hw (cp_back_z - cp_thickness)) ;;
  v8 <- verts_new (mkVec (-0.04 - cp_depth) (- hw) (cp_back_z - cp_thickness)) ;;
  faces_new [v1; v2; v3; v4] ;;
  faces_new [v8; v7; v6; v5] ;;
  faces_new [v1; v5; v6; v2] ;;
  faces_new [v3; v7; v8; v4] ;;
  faces_new [v1; v4; v8; v5] ;;
  faces_new [v2; v6; v7; v3].

Definition create_cabinet : Build handle :=
  clear_scene ;;
  root <- named (empty_add (mkVec 0 0 0)) "cabinet-root" ;;
  left <- create_side_panel "left" false ;;
  set_parent left root ;;
  right <- create_side_panel "right" true ;;
  set_parent right root ;;
  back <- create_flat_panel "back" 0.50 1.85 0.02 (mkVec (-0.39) 0 0.925) ;;
  set_parent back root ;;
  top <- named (primitive_cube_add (mkVec (-0.22) 0 1.94)) "top" ;;
  transform_apply ;;
  set_parent top root ;;
  bottom <- named (primitive_cube_add (mkVec (-0.20) 0 0.01)) "bottom" ;;
  transform_apply ;;
  set_parent bottom root ;;
  front_kick <- create_flat_panel "front-kick" 0.50 0.18 0.02 (mkVec (-0.04) 0 0.09) ;;
  set_parent front_kick root ;;
  marquee_box <- create_flat_panel "marquee-box" 0.50 0.12 0.10 (mkVec (-0.12) 0 1.82) ;;
  set_parent marquee_box root ;;
  marquee <- named (primitive_plane_add (mkVec (-0.06) 0 1.82)) "marquee" ;;
  transform_apply ;;
  set_parent marquee root ;;
  bezel <- create_bezel_with_cutout ;;
  set_parent bezel root ;;
  screen <- create_screen ;;
  set_parent screen root ;;
  mesh <- bmesh cp_shell_mesh ;;
  cp_shell <- objects_new_link "cp-shell" mesh ;;
  set_parent cp_shell root ;;
  joystick <- named (primitive_plane_add (mkVec (-0.08) 0 0.85)) "joystick" ;;
  transform_apply ;;
  set_parent joystick root ;;
  coin_door <- create_flat_panel "coin-door" 0.20 0.15 0.02 (mkVec (-0.04) 0 0.35) ;;
  set_parent coin_door root ;;
  speaker <- create_flat_panel "speaker" 0.50 0.08 0.02 (mkVec (-0.04) 0 0.55) ;;
  set_parent speaker root ;;
  t_molding <- create_t_molding ;;
  set_parent t_molding root ;;
  screen_mock_v <- named (primitive_cube_add (mkVec (-0.06) 0 1.35)) "screen-mock-vertical" ;;
  transform_apply ;;
  set_parent screen_mock_v root ;;
  screen_mock_h <- named (primitive_cube_add (mkVec (-0.06) 0 1.35)) "screen-mock-horizontal" ;;
  transform_apply ;;
  set_parent screen_mock_h root ;;
  ret root.

End Upright.

(** ** create_cocktail_template.py (Cocktail) *)

Module Cocktail.

Definition create_bezel_with_cutout (name : string)
    (outer_w outer_h cutout_w cutout_h thickness : Q) : Build handle :=
  mesh <- bmesh (bezel_mesh_xy (outer_w / 2) (outer_h / 2)
                               (cutout_w / 2) (cutout_h / 2) (thickness / 2)) ;;
  obj <- objects_new_link name mesh ;;
  ret obj.

Definition radius : Q := 0.006.

Definition path : list Vec3 :=
  let table_w := 0.70 in
  let table_d := 0.55 in
  let table_h := 0.70 in
  let hw := table_w / 2 in
  let hd := table_d / 2 in
  [ mkVec hw (- hd) table_h; mkVec hw hd table_h; mkVec (- hw) hd table_h;
    mkVec (- hw) (- hd) table_h; mkVec hw (- hd) table_h ].

Definition create_t_molding_cocktail : Build (option handle) :=
  segments <- sweep_path path radius [] ;;
  join_segments segments.

Definition leg_name (i : nat) : string :=
  String.append "leg-" (NilEmpty.string_of_uint (Nat.to_uint (i + 1))).

Definition create_cocktail_cabinet : Build handle :=
  clear_scene ;;
  let table_width := 0.70 in
  let table_depth := 0.55 in
  let table_height := 0.70 in
  let leg_height := 0.60 in
  let panel_thickness := 0.02 in
  root <- named (empty_add (mkVec 0 0 0)) "cabinet-root" ;;
  bezel <- create_bezel_with_cutout "bezel" table_width table_depth 0.45 0.35 0.01 ;;
  set_location bezel (mkVec 0 0 (table_height + 0.005)) ;;
  set_parent bezel root ;;
  screen <- named (primitive_plane_add (mkVec 0 0 (table_height - 0.01))) "screen" ;;
  transform_apply ;;
  set_parent screen root ;;
  screen_mock_h <- named (primitive_cube_add (mkVec 0 0 (table_height - 0.01)))
                         "screen-mock-horizontal" ;;
  transform_apply ;;
  set_parent screen_mock_h root ;;
  screen_mock_v <- named (primitive_cube_add (mkVec 0 0 (table_height - 0.01)))
                         "screen-mock-vertical" ;;
  transform_apply ;;
  set_parent screen_mock_v root ;;
  left <- create_box "left"
            (mkVec panel_thickness table_depth (table_height - leg_height))
            (mkVec (- table_width / 2) 0 ((table_height + leg_height) / 2)) ;;
  set_parent left root ;;
  right <- create_box "right"
             (mkVec panel_thickness table_depth (table_height - leg_height))
             (mkVec (table_width / 2) 0 ((table_height + leg_height) / 2)) ;;
  set_parent right root ;;
  back <- create_box "back"
            (mkVec table_width panel_thickness (table_height - leg_height))
            (mkVec 0 (table_depth / 2) ((table_height + leg_height) / 2)) ;;
  set_parent back root ;;
  front <- create_box "front"
             (mkVec table_width panel_thickness (table_height - leg_height - 0.12))
             (mkVec 0 (- table_depth / 2) ((table_height + leg_height) / 2 + 0.06)) ;;
  set_parent front root ;;
  top <- create_box "top"
           (mkVec (table_width - 0.02) (table_depth - 0.02) panel_thickness)
           (mkVec 0 0 (table_height - 0.015)) ;;
  set_parent top root ;;
  bottom <- create_box "bottom"
              (mkVec (table_width - 0.04) (table_depth - 0.04) panel_thickness)
              (mkVec 0 0 (leg_height + 0.01)) ;;
  set_parent bottom root ;;
  joystick <- named (primitive_plane_add
                (mkVec 0 (- table_depth / 2 + 0.06) (table_height - 0.05))) "joystick" ;;
  transform_apply ;;
  set_parent joystick root ;;
  joystick2 <- named (primitive_plane_add
                 (mkVec 0 (table_depth / 2 - 0.06) (table_height - 0.05))) "joystick-2" ;;
  transform_apply ;;
  set_parent joystick2 root ;;
  marquee <- named (primitive_plane_add
               (mkVec (table_width / 2 + 0.005) 0 (table_height - 0.05))) "marquee" ;;
  transform_apply ;;
  set_parent marquee root ;;
  coin_door <- create_box "coin-door"
                 (mkVec 0.08 (panel_thickness + 0.005) 0.06)
                 (mkVec 0.15 (- table_depth / 2 - 0.002) (leg_height + 0.10)) ;;
  set_parent coin_door root ;;
  let leg_positions :=
    [ (table_width / 2 - 0.03, table_depth / 2 - 0.03);
      (- table_width / 2 + 0.03, table_depth / 2 - 0.03);
      (table_width / 2 - 0.03, - table_depth / 2 + 0.03);
      (- table_width / 2 + 0.03, - table_depth / 2 + 0.03) ] in
  forM_ (combine (seq 0 (List.length leg_positions)) leg_positions)
    (fun '(i, (x, y)) =>
       leg <- create_box (leg_name i) (mkVec 0.04 0.04 leg_height)
                (mkVec x y (leg_height / 2)) ;;
       set_parent leg root) ;;
  t_molding <- create_t_molding_cocktail ;;
  parent_if_some t_molding root ;;
  speaker <- create_box "speaker" (mkVec 0.15 panel_thickness 0.08)
               (mkVec 0 (- table_depth / 2) (leg_height + 0.06)) ;;
  set_parent speaker root ;;
  ret root.

End Cocktail.

(** ** create_driving_template.py (Driving) *)

Module Driving.

Definition profile_2d : list (Q * Q) :=
  [ (0.0, 0.0); (0.0, 0.40); (-0.20, 0.50); (-0.30, 0.80); (-0.35, 1.10);
    (-0.30, 1.50); (-0.25, 1.70); (-0.20, 1.85); (-0.15, 1.95); (-0.80, 1.95);
    (-0.85, 1.80); (-0.85, 0.35); (-0.80, 0.0) ].

Definition thickness : Q := 0.02.

Definition side_panel_mesh (is_right : bool) : BM unit :=
  let y_offset := if is_right then 0.50 else -0.50 in
  let y_back := if is_right then y_offset - thickness else y_offset + thickness in
  extrude_profile profile_2d y_offset y_back.

Definition create_side_panel_driving (name : string) (is_right : bool)
  : Build handle :=
  mesh <- bmesh (side_panel_mesh is_right) ;;
  obj <- objects_new_link name mesh ;;
  ret obj.

Definition create_steering_wheel (name : string) (location : Vec3) : Build handle :=
  primitive_torus_add location ;;
  wheel <- active_object ;;
  primitive_cylinder_add location ;;
  hub <- active_object ;;
  spokes <- forM (seq 0 3) (fun i =>
              primitive_cube_add location ;;
              spoke <- active_object ;;
              transform_apply ;;
              ret spoke) ;;
  select_all_deselect ;;
  select_set wheel ;;
  select_set hub ;;
  forM_ spokes select_set ;;
  set_active wheel ;;
  object_join ;;
  set_name wheel name ;;
  transform_apply ;;
  ret wheel.

Definition create_pedals (parent : handle) : Build (handle * handle) :=
  gas <- create_box "gas-pedal" (mkVec 0.08 0.12 0.02) (mkVec (-0.05) 0.15 0.05) ;;
  transform_apply ;;
  set_parent gas parent ;;
  brake <- create_box "brake-pedal" (mkVec 0.10 0.15 0.02) (mkVec (-0.05) (-0.10) 0.05) ;;
  transform_apply ;;
  set_parent brake parent ;;
  ret (gas, brake).

Definition create_gear_shifter (name : string) (location : Vec3) : Build handle :=
  primitive_cylinder_add location ;;
  base <- active_object ;;
  let shaft_loc := mkVec (vx location) (vy location) (vz location + 0.08) in
  primitive_cylinder_add shaft_loc ;;
  shaft <- active_object ;;
  let knob_loc := mkVec (vx location) (vy location) (vz location + 0.15) in
  primitive_uv_sphere_add knob_loc ;;
  knob <- active_object ;;
  select_all_deselect ;;
  select_set base ;;
  select_set shaft ;;
  select_set knob ;;
  set_active base ;;
  object_join ;;
  set_name base name ;;
  ret base.

Definition seat_mesh : BM unit :=
  let seat_w := 0.40 in
  let seat_d := 0.40 in
  let seat_h := 0.08 in
  let sw := seat_w / 2 in
  let sd := seat_d / 2 in
  let sh := seat_h in
  v1 <- verts_new (mkVec (- sw) (- sd) 0) ;;
  v2 <- verts_new (mkVec sw (- sd) 0) ;;
  v3 <- verts_new (mkVec sw sd 0) ;;
  v4 <- verts_new (mkVec (- sw) sd 0) ;;
  v5 <- verts_new (mkVec (- sw) (- sd) sh) ;;
  v6 <- verts_new (mkVec sw (- sd) sh) ;;
  v7 <- verts_new (mkVec sw sd sh) ;;
  v8 <- verts_new (mkVec (- sw) sd sh) ;;
  faces_new [v1; v2; v3; v4] ;;
  faces_new [v8; v7; v6; v5] ;;
  faces_new [v1; v5; v6; v2] ;;
  faces_new [v3; v7; v8; v4] ;;
  faces_new [v1; v4; v8; v5] ;;
  faces_new [v2; v6; v7; v3] ;;
  let back_h := 0.50 in
  b1 <- verts_new (mkVec (- sw) (sd - 0.05) sh) ;;
  b2 <- verts_new (mkVec sw (sd - 0.05) sh) ;;
  b3 <- verts_new (mkVec sw sd sh) ;;
  b4 <- verts_new (mkVec (- sw) sd sh) ;;
  b5 <- verts_new (mkVec (- sw * 0.9) (sd - 0.08) (sh + back_h)) ;;
  b6 <- verts_new (mkVec (sw * 0.9) (sd - 0.08) (sh + back_h)) ;;
  b7 <- verts_new (mkVec (sw * 0.9) (sd - 0.02) (sh + back_h)) ;;
  b8 <- verts_new (mkVec (- sw * 0.9) (sd - 0.02) (sh + back_h)) ;;
  faces_new [b1; b2; b6; b5] ;;
  faces_new [b3; b4; b8; b7] ;;
  faces_new [b2; b3; b7; b6] ;;
  faces_new [b4; b1; b5; b8] ;;
  faces_new [b5; b6; b7; b8].

Definition create_seat (name : string) (location : Vec3) : Build handle :=
  mesh <- bmesh seat_mesh ;;
  obj <- objects_new_link name mesh ;;
  set_location obj location ;;
  ret obj.

Definition create_bezel_with_cutout (name : string)
    (outer_w outer_h cutout_w cutout_h thickness : Q) : Build handle :=
  mesh <- bmesh (bezel_mesh_xz (outer_w / 2) (outer_h / 2)
                               (cutout_w / 2) (cutout_h / 2) (thickness / 2)) ;;
  obj <- objects_new_link name mesh ;;
  ret obj.

Definition radius : Q := 0.008.

Definition path : list Vec3 :=
  [ mkVec (-0.20) (-0.50) 0.50; mkVec (-0.20) (-0.50) 1.70;
    mkVec (-0.15) (-0.50) 1.95; mkVec (-0.15) 0.50 1.95;
    mkVec (-0.20) 0.50 1.70; mkVec (-0.20) 0.50 0.50 ].

Definition create_t_molding_driving : Build (option handle) :=
  segments <- sweep_path path radius [] ;;
  join_segments segments.

Definition create_driving_cabinet : Build handle :=
  clear_scene ;;
  root <- named (empty_add (mkVec 0 0 0)) "cabinet-root" ;;
  left <- create_side_panel_driving "left" false ;;
  set_parent left root ;;
  right <- create_side_panel_driving "right" true ;;
  set_parent right root ;;
  back <- create_box "back" (mkVec 0.02 0.98 1.60) (mkVec (-0.84) 0 0.90) ;;
  set_parent back root ;;
  top <- create_box "top" (mkVec 0.70 0.98 0.02) (mkVec (-0.47) 0 1.94) ;;
  set_parent top root ;;
  bottom <- create_box "bottom" (mkVec 0.85 0.98 0.02) (mkVec (-0.42) 0 0.01) ;;
  set_parent bottom root ;;
  dashboard <- create_box "dashboard" (mkVec 0.25 0.70 0.02) (mkVec (-0.27) 0 0.72) ;;
  transform_apply ;;
  set_parent dashboard root ;;
  marquee <- named (primitive_plane_add (mkVec (-0.17) 0 1.90)) "marquee" ;;
  transform_apply ;;
  set_parent marquee root ;;
  marquee_box <- create_box "marquee-box" (mkVec 0.12 0.98 0.15) (mkVec (-0.19) 0 1.87) ;;
  set_parent marquee_box root ;;
  bezel <- create_bezel_with_cutout "bezel" 0.90 0.55 0.75 0.45 0.02 ;;
  set_location bezel (mkVec (-0.32) 0 1.30) ;;
  transform_apply ;;
  set_parent bezel root ;;
  screen <- named (primitive_plane_add (mkVec (-0.31) 0 1.30)) "screen" ;;
  transform_apply ;;
  set_parent screen root ;;
  screen_mock_h <- named (primitive_cube_add (mkVec (-0.31) 0 1.30))
                         "screen-mock-horizontal" ;;
  transform_apply ;;
  set_parent screen_mock_h root ;;
  screen_mock_v <- named (primitive_cube_add (mkVec (-0.31) 0 1.30))
                         "screen-mock-vertical" ;;
  transform_apply ;;
  set_parent screen_mock_v root ;;
  wheel <- create_steering_wheel "steering-wheel" (mkVec (-0.15) 0 0.85) ;;
  set_parent wheel root ;;
  column <- create_box "steering-column" (mkVec 0.08 0.10 0.25) (mkVec (-0.20) 0 0.70) ;;
  transform_apply ;;
  set_parent column root ;;
  create_pedals root ;;
  shifter <- create_gear_shifter "gear-shifter" (mkVec (-0.25) 0.25 0.55) ;;
  set_parent shifter root ;;
  seat <- create_seat "seat" (mkVec (-0.55) 0 0.30) ;;
  set_parent seat root ;;
  coin_door <- create_box "coin-door" (mkVec 0.02 0.15 0.10) (mkVec (-0.05) 0.30 0.35) ;;
  set_parent coin_door root ;;
  speaker <- create_box "speaker" (mkVec 0.02 0.30 0.08) (mkVec (-0.22) 0 1.65) ;;
  set_parent speaker root ;;
  front_kick <- create_box "front-kick" (mkVec 0.15 0.60 0.02) (mkVec (-0.07) 0 0.25) ;;
  transform_apply ;;
  set_parent front_kick root ;;
  t_molding <- create_t_molding_driving ;;
  parent_if_some t_molding root ;;
  ret root.

End Driving.

(** ** create_lightgun_template.py (LightGun) *)

Module LightGun.

Definition profile_2d : list (Q * Q) :=
  [ (0.0, 0.0); (0.0, 0.20); (-0.10, 0.30); (-0.10, 0.90); (-0.15, 1.00);
    (-0.12, 1.50); (-0.08, 1.80); (-0.05, 1.95); (-0.05, 2.10); (0.0, 2.15);
    (-0.50, 2.15); (-0.55, 2.00); (-0.55, 0.0) ].

Definition thickness : Q := 0.02.

Definition side_panel_mesh (is_right : bool) : BM unit :=
  let y_offset := if is_right then thickness / 2 else - thickness / 2 in
  let y_back := if is_right then - thickness / 2 else thickness / 2 in
  extrude_profile profile_2d y_offset y_back.

Definition create_side_panel_lightgun (name : string) (is_right : bool)
  : Build handle :=
  mesh <- bmesh (side_panel_mesh is_right) ;;
  obj <- objects_new_link name mesh ;;
  let y_pos := if is_right then 0.40 else -0.40 in
  set_location obj (mkVec 0 y_pos 0) ;;
  ret obj.

Definition create_bezel_with_cutout (name : string)
    (outer_w outer_h cutout_w cutout_h thickness : Q) : Build handle :=
  mesh <- bmesh (bezel_mesh_xz (outer_w / 2) (outer_h / 2)
                               (cutout_w / 2) (cutout_h / 2) (thickness / 2)) ;;
  obj <- objects_new_link name mesh ;;
  ret obj.

Definition create_gun (name : string) (location : Vec3) : Build handle :=
  primitive_cube_add location ;;
  gun_body <- active_object ;;
  transform_apply ;;
  primitive_cylinder_add (mkVec (vx location) (vy location + 0.11) (vz location)) ;;
  barrel <- active_object ;;
  transform_apply ;;
  primitive_cube_add (mkVec (vx location) (vy location - 0.02) (vz location - 0.05)) ;;
  handle_ <- active_object ;;
  transform_apply ;;
  select_all_deselect ;;
  select_set gun_body ;;
  select_set barrel ;;
  select_set handle_ ;;
  set_active gun_body ;;
  object_join ;;
  set_name gun_body name ;;
  ret gun_body.

Definition radius : Q := 0.008.

Definition path : list Vec3 :=
  [ mkVec (-0.10) (-0.40) 0.30; mkVec (-0.10) 0.40 0.30; mkVec (-0.10) 0.40 0.90;
    mkVec (-0.15) 0.40 1.00; mkVec (-0.15) (-0.40) 1.00; mkVec (-0.10) (-0.40) 0.90;
    mkVec (-0.10) (-0.40) 0.30 ].

Definition path2 : list Vec3 :=
  [ mkVec (-0.05) (-0.40) 1.95; mkVec (-0.05) 0.40 1.95; mkVec (-0.05) 0.40 2.10;
    mkVec (-0.05) (-0.40) 2.10; mkVec (-0.05) (-0.40) 1.95 ].

Definition create_t_molding_lightgun : Build (option handle) :=
  segments <- sweep_path path radius [] ;;
  segments <- sweep_path path2 radius segments ;;
  join_segments segments.

Definition create_lightgun_cabinet : Build handle :=
  clear_scene ;;
  root <- named (empty_add (mkVec 0 0 0)) "cabinet-root" ;;
  left <- create_side_panel_lightgun "left" false ;;
  set_parent left root ;;
  right <- create_side_panel_lightgun "right" true ;;
  set_parent right root ;;
  back <- create_box "back" (mkVec 0.02 0.78 2.00) (mkVec (-0.54) 0 1.00) ;;
  set_parent back root ;;
  top <- create_box "top" (mkVec 0.50 0.78 0.02) (mkVec (-0.27) 0 2.14) ;;
  set_parent top root ;;
  bottom <- create_box "bottom" (mkVec 0.55 0.78 0.02) (mkVec (-0.27) 0 0.01) ;;
  set_parent bottom root ;;
  front <- create_box "front" (mkVec 0.02 0.78 0.50) (mkVec (-0.14) 0 1.25) ;;
  set_parent front root ;;
  front_lower <- create_box "front-lower" (mkVec 0.02 0.78 0.55) (mkVec (-0.09) 0 0.60) ;;
  set_parent front_lower root ;;
  marquee <- named (primitive_plane_add (mkVec (-0.04) 0 2.02)) "marquee" ;;
  transform_apply ;;
  set_parent marquee root ;;
  marquee_box <- create_box "marquee-box" (mkVec 0.10 0.78 0.15) (mkVec (-0.08) 0 2.02) ;;
  set_parent marquee_box root ;;
  bezel <- create_bezel_with_cutout "bezel" 0.75 0.55 0.60 0.42 0.015 ;;
  set_location bezel (mkVec (-0.13) 0 1.25) ;;
  transform_apply ;;
  set_parent bezel root ;;
  screen <- named (primitive_plane_add (mkVec (-0.12) 0 1.25)) "screen" ;;
  transform_apply ;;
  set_parent screen root ;;
  screen_mock_h <- named (primitive_cube_add (mkVec (-0.12) 0 1.25))
                         "screen-mock-horizontal" ;;
  transform_apply ;;
  set_parent screen_mock_h root ;;
  screen_mock_v <- named (primitive_cube_add (mkVec (-0.12) 0 1.25))
                         "screen-mock-vertical" ;;
  transform_apply ;;
  set_parent screen_mock_v root ;;
  gun <- create_gun "gun" (mkVec (-0.08) (-0.18) 0.85) ;;
  set_parent gun root ;;
  gun2 <- create_gun "gun2" (mkVec (-0.08) 0.18 0.85) ;;
  set_parent gun2 root ;;
  gun_shelf <- create_box "gun-shelf" (mkVec 0.12 0.78 0.02) (mkVec (-0.10) 0 0.90) ;;
  set_parent gun_shelf root ;;
  coin_door <- create_box "coin-door" (mkVec 0.02 0.15 0.12) (mkVec (-0.08) 0 0.25) ;;
  set_parent coin_door root ;;
  speaker <- create_box "speaker" (mkVec 0.02 0.40 0.08) (mkVec (-0.08) 0 1.85) ;;
  set_parent speaker root ;;
  pedal <- create_box "pedal" (mkVec 0.15 0.25 0.03) (mkVec 0.15 0 0.015) ;;
  set_parent pedal root ;;
  t_molding <- create_t_molding_lightgun ;;
  parent_if_some t_molding root ;;
  ret root.

End LightGun.

(** ** The four variants *)

Inductive Variant : Type := Upright | Cocktail | Driving | LightGun.

Definition build_variant (v : Variant) : Build handle :=
  match v with
  | Upright => Upright.create_cabinet
  | Cocktail => Cocktail.create_cocktail_cabinet
  | Driving => Driving.create_driving_cabinet
  | LightGun => LightGun.create_lightgun_cabinet
  end.

Definition empty_scene : Scene := mkScene [] None [].

(** The root and the scene a variant's script leaves, run in an empty
    scene. *)
Definition built (v : Variant) : handle * Scene :=
  match build_variant v empty_scene with
  | Ok rs => rs
  | Raise _ => (0%nat, empty_scene)
  end.

Definition built_root (v : Variant) : handle := fst (built v).
Definition built_scene (v : Variant) : Scene := snd (built v).

(** ** Vocabulary of the properties *)

(** *** Scene hierarchy and names *)

Definition root_name : string := "cabinet-root".

(** Exactly one object is named [cabinet-root]: it is [root] and has no
    parent; the parent chain of every other object ends at [root]. *)
Definition rooted_at (s : Scene) (root : handle) : Prop :=
  (exists o, find_by_name s root_name = [o]
             /\ obj_id o = root /\ obj_parent o = None)
  /\ Forall (fun o => obj_id o = root
                      \/ chain_end s (List.length (objects s)) (obj_id o) = Some root)
            (objects s).

Definition rooted_atb (s : Scene) (root : handle) : bool :=
  match find_by_name s root_name with
  | [o] => Nat.eqb (obj_id o) root
           && match obj_parent o with None => true | Some _ => false end
  | _ => false
  end
  && forallb (fun o =>
       Nat.eqb (obj_id o) root
       || match chain_end s (List.length (objects s)) (obj_id o) with
          | Some r => Nat.eqb r root
          | None => false
          end) (objects s).

Definition required_names : list string :=
  [ "left"; "right"; "back"; "top"; "bottom"; "bezel"; "screen";
    "screen-mock-horizontal"; "screen-mock-vertical"; "marquee"; "coin-door";
    "speaker"; "t-molding" ].

Definition has_name (s : Scene) (n : string) : bool :=
  existsb (String.eqb n) (names s).

(** [word] occurs in [name]. *)
Definition mentions (word name : string) : bool :=
  match String.index 0 word name with
  | Some _ => true
  | None => false
  end.

(** *** Meshes *)

Definition vert (m : Mesh) (v : BMVert) : Vec3 := nth v (verts m) (mkVec 0 0 0).

(** The normal of a face by the right-hand rule on its winding: the cross
    product of its first two edges (not normalised). *)
Definition face_normal (m : Mesh) (f : Face) : Vec3 :=
  match f with
  | a :: b :: c :: _ =>
      cross (sub (vert m b) (vert m a)) (sub (vert m c) (vert m b))
  | _ => mkVec 0 0 0
  end.

Definition Qsum (l : list Q) : Q := fold_right Qplus 0 l.

Definition Qlen {A} (l : list A) : Q := inject_Z (Z.of_nat (List.length l)).

Definition mean (l : list Vec3) : Vec3 :=
  mkVec (Qsum (map vx l) / Qlen l) (Qsum (map vy l) / Qlen l)
        (Qsum (map vz l) / Qlen l).

Definition face_centre (m : Mesh) (f : Face) : Vec3 := mean (map (vert m) f).

(** The centroid of a profile (the mean of its points), placed at [y]. *)
Definition profile_centroid (profile : list (Q * Q)) (y : Q) : Vec3 :=
  mkVec (Qsum (map fst profile) / Qlen profile) y
        (Qsum (map snd profile) / Qlen profile).

(** The normal [n] of a face with centre [p] points away from [c]. *)
Definition points_away (n p c : Vec3) : Prop := 0 < dot n (sub p c).

Definition points_awayb (n p c : Vec3) : bool := Qltb 0 (dot n (sub p c)).

Definition veq (a b : Vec3) : Prop :=
  vx a == vx b /\ vy a == vy b /\ vz a == vz b.

Definition point (profile : list (Q * Q)) (i : nat) : Q * Q :=
  nth i profile (0, 0).

(** Twice the signed area of the triangle [p q r] in the x-z plane:
    positive when [r] is on the left of the ray from [p] to [q]. *)
Definition left_of (p q r : Q * Q) : Q :=
  (fst q - fst p) * (snd r - snd p) - (snd q - snd p) * (fst r - fst p).

(** A convex profile listed counter-clockwise: no point of the profile is
    on the right of an edge, and some point is on its left. *)
Definition convex_ccw (profile : list (Q * Q)) : bool :=
  let n := List.length profile in
  forallb (fun i =>
    let p := point profile i in
    let q := point profile ((i + 1) mod n) in
    forallb (fun r => Qle_bool 0 (left_of p q r)) profile
    && existsb (fun r => Qltb 0 (left_of p q r)) profile)
    (seq 0 n).

(** The mesh [extrude_profile] builds, in closed form: the front ring, the
    back ring; the front cap, the reversed back cap and one quad per edge. *)
Definition side_quad (n i : nat) : Face :=
  [i; (i + 1) mod n; n + (i + 1) mod n; n + i]%nat.

Definition extruded (profile : list (Q * Q)) (y_front y_back : Q) : Mesh :=
  let n := List.length profile in
  mkMesh (map (fun p => mkVec (fst p) y_front (snd p)) profile
          ++ map (fun p => mkVec (fst p) y_back (snd p)) profile)
         (seq 0 n :: rev (seq n n) :: map (side_quad n) (seq 0 n)).

(** The loop [vs] has a vertex that the face [g] has not. *)
Definition differs_from (vs g : Face) : Prop := exists v, In v vs /\ ~ In v g.

(** The sixteen faces of a cutout panel whose vertices were created in the
    order of the scripts. *)
Definition bezel_face_list : list Face :=
  [ [0; 1; 5; 4]; [1; 2; 6; 5]; [2; 3; 7; 6]; [3; 0; 4; 7];
    [12; 13; 9; 8]; [13; 14; 10; 9]; [14; 15; 11; 10]; [15; 12; 8; 11];
    [0; 8; 9; 1]; [1; 9; 10; 2]; [2; 10; 11; 3]; [3; 11; 8; 0];
    [4; 5; 13; 12]; [5; 6; 14; 13]; [6; 7; 15; 14]; [7; 4; 12; 15] ]%nat.

(** The sixteen vertices of a cutout panel, in the order the scripts create
    them: outer front, cutout front, outer back, cutout back. *)
Definition bezel_verts_xz (hw hh chw chh t : Q) : list Vec3 :=
  [ mkVec (- hw) (- t) (- hh); mkVec hw (- t) (- hh);
    mkVec hw (- t) hh; mkVec (- hw) (- t) hh;
    mkVec (- chw) (- t) (- chh); mkVec chw (- t) (- chh);
    mkVec chw (- t) chh; mkVec (- chw) (- t) chh;
    mkVec (- hw) t (- hh); mkVec hw t (- hh);
    mkVec hw t hh; mkVec (- hw) t hh;
    mkVec (- chw) t (- chh); mkVec chw t (- chh);
    mkVec chw t chh; mkVec (- chw) t chh ].

Definition bezel_verts_xy (hw hh chw chh t : Q) : list Vec3 :=
  [ mkVec (- hw) (- hh) t; mkVec hw (- hh) t;
    mkVec hw hh t; mkVec (- hw) hh t;
    mkVec (- chw) (- chh) t; mkVec chw (- chh) t;
    mkVec chw chh t; mkVec (- chw) chh t;
    mkVec (- hw) (- hh) (- t); mkVec hw (- hh) (- t);
    mkVec hw hh (- t); mkVec (- hw) hh (- t);
    mkVec (- chw) (- chh) (- t); mkVec chw (- chh) (- t);
    mkVec chw chh (- t); mkVec (- chw) chh (- t) ].

(** The geometry of the object a builder returned. *)
Definition mesh_of (s : Scene) (h : handle) : option Mesh :=
  match find_by_id s h with
  | Some o => match obj_data o with
              | [Built m] => Some m
              | _ => None
              end
  | None => None
  end.

(** A builder call that returns an object carrying a cutout panel: sixteen
    vertices and the sixteen faces of [bezel_face_list]. *)
Definition returns_cutout_panel (r : result (handle * Scene)) : Prop :=
  exists h s' m,
    r = Ok (h, s') /\ mesh_of s' h = Some m
    /\ List.length (verts m) = 16%nat /\ List.length (faces m) = 16%nat
    /\ faces m = bezel_face_list.

(** *** Sweep paths *)


(** The segment from [p] to [q] is one the builders build: the test
    [length < 0.001] of [create_tube_segment] and of [add_strip], on the
    length the program computes, fails. *)
Definition far (p q : Vec3) : bool :=
  negb (length_lt (fsub (Vector q) (Vector p)) 0.001).


Definition consecutive (path : list Vec3) : list (Vec3 * Vec3) :=
  combine path (tl path).



Definition all_far (path : list Vec3) : bool :=
  forallb (fun pq => far (fst pq) (snd pq)) (consecutive path).

(** The middle of the segment from [p1] to [p2]. *)
Definition midpoint (p1 p2 : Vec3) : Vec3 :=
  mkVec ((vx p1 + vx p2) / 2) ((vy p1 + vy p2) / 2) ((vz p1 + vz p2) / 2).

(** The waypoint pairs of a path that get a tube. *)
Definition far_pairs (path : list Vec3) : list (Vec3 * Vec3) :=
  filter (fun pq => far (fst pq) (snd pq)) (consecutive path).

(** The rotation axis of the tube from [p1] to [p2]: none when the guard
    [rot_axis.length > 0.001] of the script fails. *)
Definition tube_axis (p1 p2 : Vec3) : option Vec3 :=
  if tube_rot_axis_usable p1 p2 then Some (tube_rot_axis p1 p2) else None.

(** Where the tube of a pair is put, and about which axis it is turned. *)
Definition tube_placement (pq : Vec3 * Vec3) : Vec3 * option Vec3 :=
  (midpoint (fst pq) (snd pq), tube_axis (fst pq) (snd pq)).

Definition placement (o : Object) : Vec3 * option Vec3 :=
  (obj_location o, obj_axis o).

(** *** Frames *)

(** Every face of the mesh is on vertices of the mesh. *)
Definition faces_in_range (bm : Mesh) : Prop :=
  Forall (Forall (fun v => (v < List.length (verts bm))%nat)) (faces bm).

(** The box of one strip of [Upright.add_strip], its first vertex being
    vertex [n] of the mesh: start cap, end cap and four sides. *)
Definition strip_box_faces (n : nat) : list Face :=
  [ [n; n + 1; n + 2; n + 3]; [n + 7; n + 6; n + 5; n + 4];
    [n; n + 4; n + 5; n + 1]; [n + 1; n + 5; n + 6; n + 2];
    [n + 2; n + 6; n + 7; n + 3]; [n + 3; n + 7; n + 4; n] ]%nat.

Definition strip_box_verts (p1 p2 perp1 perp2 : Vec3) : list Vec3 :=
  [ sub (sub p1 perp1) perp2; sub (add p1 perp1) perp2;
    add (add p1 perp1) perp2; add (sub p1 perp1) perp2;
    sub (sub p2 perp1) perp2; sub (add p2 perp1) perp2;
    add (add p2 perp1) perp2; add (sub p2 perp1) perp2 ].








(** ** Vocabulary of the further properties *)

(** *** Surfaces *)

(** The directed edges of a face loop, the closing edge included. *)
Definition directed_edges (f : Face) : list (nat * nat) :=
  combine f (tl f ++ firstn 1 f).

Definition edge_eqb (e e' : nat * nat) : bool :=
  Nat.eqb (fst e) (fst e') && Nat.eqb (snd e) (snd e').

Definition count_edge (e : nat * nat) (l : list (nat * nat)) : nat :=
  List.length (filter (edge_eqb e) l).

(** A closed surface with one orientation: every directed edge is used by
    exactly one face, and its reverse by exactly one face. *)
Definition closed_oriented (fs : list Face) : bool :=
  let es := flat_map directed_edges fs in
  forallb (fun e => Nat.eqb (count_edge e es) 1
                    && Nat.eqb (count_edge (snd e, fst e) es) 1) es.

(** Twice the signed area of a face loop seen in a coordinate plane (the
    shoelace sum). *)
Definition area2 (proj : Vec3 -> Q * Q) (m : Mesh) (f : Face) : Q :=
  Qsum (map (fun e =>
               let a := proj (vert m (fst e)) in
               let b := proj (vert m (snd e)) in
               fst a * snd b - fst b * snd a)
            (directed_edges f)).

Definition xz (v : Vec3) : Q * Q := (vx v, vz v).
Definition xy (v : Vec3) : Q * Q := (vx v, vy v).

(** *** The command line of the scripts *)

(** [x in l] for a Python list of strings. *)
Definition py_in (x : string) (l : list string) : bool :=
  existsb (String.eqb x) l.

(** [l.index(x)]: the first position of [x]; [ValueError] when absent. *)
Fixpoint py_index (x : string) (l : list string) : result nat :=
  match l with
  | [] => Raise ValueError
  | a :: l' =>
      if String.eqb a x then Ok 0%nat
      else match py_index x l' with
           | Ok i => Ok (S i)
           | Raise e => Raise e
           end
  end.

(** The lines of [main] that choose the output path, the same in the four
    scripts up to the default: [argv = sys.argv; if "--" in argv: argv =
    argv[argv.index("--") + 1:] else: argv = []; if len(argv) < 1:
    output_path = default else: output_path = argv[0]]. *)
Definition output_path (default : string) (sys_argv : list string) : result string :=
  match (if py_in "--" sys_argv
         then match py_index "--" sys_argv with
              | Ok i => Ok (skipn (i + 1) sys_argv)
              | Raise e => Raise e
              end
         else Ok [])
  with
  | Raise e => Raise e
  | Ok argv =>
      if Nat.ltb (List.length argv) 1 then Ok default
      else match nth_error argv 0 with
           | Some p => Ok p
           | None => Raise IndexError
           end
  end.

Definition default_path (v : Variant) : string :=
  match v with
  | Upright => "/tmp/arcade_cabinet_template.glb"
  | Cocktail => "/tmp/cocktail_cabinet_template.glb"
  | Driving => "/tmp/driving_cabinet_template.glb"
  | LightGun => "/tmp/lightgun_cabinet_template.glb"
  end.

(** *** Names *)

(** The names Blender gives to the objects the add operators create. *)
Definition default_names : list string :=
  [ "Empty"; "Cube"; "Plane"; "Cylinder"; "Torus"; "Sphere" ].

(** *** Trim swept along a path *)

(** The body of [create_t_molding_cocktail] and [create_t_molding_driving]
    for any path and radius: the sweep, then the join. *)
Definition sweep_and_join (path : list Vec3) (radius : Q) : Build (option handle) :=
  segments <- sweep_path path radius [] ;;
  join_segments segments.

(** The body of [create_t_molding_lightgun] for any two paths: both are
    swept into the same list of segments, then joined. *)
Definition sweep_and_join2 (path path2 : list Vec3) (radius : Q)
  : Build (option handle) :=
  segments <- sweep_path path radius [] ;;
  segments <- sweep_path path2 radius segments ;;
  join_segments segments.

(** *** Models made of joined parts *)

(** The run [r] from scene [s] returns one new object, added after the
    objects of [s], which are left as they were: it has the name asked
    for (with Blender's suffix when the name is taken), no parent, no
    rotation axis, the location [location] and the geometry [pieces]; it is
    the active object and the only selected one. *)
Definition adds_one_object (s : Scene) (name : string) (location : Vec3)
           (pieces : list Geometry) (r : result (handle * Scene)) : Prop :=
  r = Ok (fresh (objects s),
          mkScene (objects s
                   ++ [mkObject (fresh (objects s)) (unique_name (objects s) name)
                         None location None pieces])
                  (Some (fresh (objects s))) [fresh (objects s)]).

(** * Properties *)

(** ** The mesh builder *)

Section MeshBuilder.
Local Open Scope nat_scope.

Lemma mem_true_iff (v : BMVert) (f : Face) : mem v f = true <-> In v f.
Proof.
  unfold mem. rewrite existsb_exists. split.
  - intros [x [Hx E]]. apply Nat.eqb_eq in E. now subst.
  - intros H. exists v. split; [assumption | apply Nat.eqb_refl].
Qed.

Lemma mem_false_iff (v : BMVert) (f : Face) : mem v f = false <-> ~ In v f.
Proof.
  rewrite <- mem_true_iff. destruct (mem v f); split; intros; congruence.
Qed.

Lemma has_dup_NoDup (f : Face) : NoDup f -> has_dup f = false.
Proof.
  induction 1 as [| v f Hv _ IH]; simpl; [reflexivity |].
  rewrite IH, orb_false_r. now apply mem_false_iff.
Qed.

(** A face that has a vertex [g] lacks is not on the vertices of [g]. *)
Lemma same_verts_differ (f g : Face) (v : BMVert) :
  In v f -> ~ In v g -> same_verts f g = false.
Proof.
  intros Hf Hg. unfold same_verts. apply andb_false_iff. right.
  apply not_true_is_false. intros H.
  rewrite forallb_forall in H. specialize (H v Hf).
  apply mem_true_iff in H. contradiction.
Qed.

Lemma faces_new_ok (vs : Face) (bm : Mesh) :
  3 <= List.length vs ->
  Forall (fun v => v < List.length (verts bm)) vs ->
  NoDup vs ->
  Forall (differs_from vs) (faces bm) ->
  faces_new vs bm = Ok (tt, mkMesh (verts bm) (faces bm ++ [vs])).
Proof.
  intros Hlen Hrange Hnodup Hnew. unfold faces_new.
  destruct (Nat.ltb_spec (List.length vs) 3) as [Hlt | _]; [lia |].
  replace (forallb (fun v => v <? List.length (verts bm)) vs) with true.
  2: { symmetry. apply forallb_forall. intros v Hv.
       rewrite Forall_forall in Hrange. apply Nat.ltb_lt. auto. }
  simpl. rewrite (has_dup_NoDup vs Hnodup).
  replace (existsb (same_verts vs) (faces bm)) with false; [reflexivity |].
  symmetry. apply not_true_is_false. intros H.
  apply existsb_exists in H. destruct H as [g [Hg E]].
  rewrite Forall_forall in Hnew. destruct (Hnew g Hg) as [v [Hv Hn]].
  rewrite (same_verts_differ vs g v Hv Hn) in E. discriminate.
Qed.

(** A list comprehension of [bm.verts.new]: the vertices are appended in
    order and numbered from the size of the mesh. *)
Lemma forM_verts_new {A} (f : A -> Vec3) (l : list A) (bm : Mesh) :
  forM l (fun p => verts_new (f p)) bm
  = Ok (seq (List.length (verts bm)) (List.length l),
        mkMesh (verts bm ++ map f l) (faces bm)).
Proof.
  revert bm. induction l as [| x l IH]; intros bm; simpl.
  - unfold ret. rewrite app_nil_r. now destruct bm.
  - unfold bind at 1. unfold verts_new at 1.
    unfold bind at 1. rewrite IH. simpl. unfold ret.
    rewrite length_app. simpl. rewrite Nat.add_1_r, <- app_assoc.
    reflexivity.
Qed.

Lemma index_seq {St} (a n i : nat) (s : St) :
  i < n -> index (seq a n) i s = Ok (a + i, s).
Proof.
  intros H. unfold index.
  rewrite (nth_error_nth' (seq a n) 0) by now rewrite length_seq.
  now rewrite seq_nth.
Qed.

Lemma succ_mod (n i : nat) :
  2 <= n -> i < n ->
  (i + 1) mod n < n /\ (i + 1) mod n <> i
  /\ ((i + 1) mod n = i + 1 \/ ((i + 1) mod n = 0 /\ i + 1 = n)).
Proof.
  intros Hn Hi. destruct (Nat.eq_dec (i + 1) n) as [E | E].
  - rewrite E, Nat.Div0.mod_same. lia.
  - rewrite Nat.mod_small by lia. lia.
Qed.

Lemma side_quad_NoDup (n i : nat) : 2 <= n -> i < n -> NoDup (side_quad n i).
Proof.
  intros Hn Hi. destruct (succ_mod n i Hn Hi) as [Hj [Hne _]].
  unfold side_quad.
  repeat constructor; simpl; intuition lia.
Qed.

Lemma side_quad_range (n i : nat) :
  2 <= n -> i < n -> Forall (fun v => v < n + n) (side_quad n i).
Proof.
  intros Hn Hi. destruct (succ_mod n i Hn Hi) as [Hj _].
  unfold side_quad. repeat constructor; lia.
Qed.

Lemma side_quad_differs_front (n i : nat) :
  i < n -> differs_from (side_quad n i) (seq 0 n).
Proof.
  intros Hi. exists (n + i). split.
  - unfold side_quad. simpl. auto.
  - rewrite in_seq. lia.
Qed.

Lemma side_quad_differs_back (n i : nat) :
  i < n -> differs_from (side_quad n i) (rev (seq n n)).
Proof.
  intros Hi. exists i. split.
  - unfold side_quad. simpl. auto.
  - rewrite <- in_rev, in_seq. lia.
Qed.

(** From three points on, two edges of the loop never share both ends. *)
Lemma side_quad_differs_earlier (n i k : nat) :
  3 <= n -> i < n -> k < i -> differs_from (side_quad n i) (side_quad n k).
Proof.
  intros Hn Hi Hk.
  destruct (succ_mod n i) as [Hj [Hji Hjv]]; [lia | lia |].
  destruct (succ_mod n k) as [Hk' [_ Hkv]]; [lia | lia |].
  destruct (Nat.eq_dec i (k + 1)) as [E | E].
  - exists ((i + 1) mod n). split.
    + unfold side_quad. simpl. auto.
    + unfold side_quad. simpl. intuition lia.
  - exists i. split.
    + unfold side_quad. simpl. auto.
    + unfold side_quad. simpl. intuition lia.
Qed.

End MeshBuilder.

(** ** Profile extrusion *)

Section Extrusion.
Local Open Scope nat_scope.

Variable profile : list (Q * Q).
Variables y_front y_back : Q.

Let n := List.length profile.
Let ring (y : Q) := map (fun p : Q * Q => mkVec (fst p) y (snd p)) profile.
Let V := ring y_front ++ ring y_back.

Lemma ring_length (y : Q) : List.length (ring y) = n.
Proof. unfold ring. now rewrite length_map. Qed.

Lemma V_length : List.length V = n + n.
Proof. unfold V. now rewrite length_app, !ring_length. Qed.

(** One turn of the loop over the edges adds the quad of its edge. *)
Lemma side_loop_step (i : nat) :
  3 <= n -> i < n ->
  (fi <- index (seq 0 n) i ;;
   fj <- index (seq 0 n) ((i + 1) mod n) ;;
   bj <- index (seq n n) ((i + 1) mod n) ;;
   bi <- index (seq n n) i ;;
   faces_new [fi; fj; bj; bi])
    (mkMesh V (seq 0 n :: rev (seq n n) :: map (side_quad n) (seq 0 i)))
  = Ok (tt, mkMesh V (seq 0 n :: rev (seq n n) :: map (side_quad n) (seq 0 (S i)))).
Proof.
  intros Hn Hi.
  destruct (succ_mod n i) as [Hj _]; [lia | lia |].
  unfold bind.
  rewrite (index_seq 0 n i) by assumption.
  rewrite (index_seq 0 n ((i + 1) mod n)) by assumption.
  rewrite (index_seq n n ((i + 1) mod n)) by assumption.
  rewrite (index_seq n n i) by assumption.
  change [0 + i; 0 + (i + 1) mod n; n + (i + 1) mod n; n + i]
    with (side_quad n i).
  rewrite faces_new_ok.
  - cbn [verts faces app]. rewrite seq_S, map_app. reflexivity.
  - simpl. lia.
  - simpl verts. rewrite V_length. apply side_quad_range; lia.
  - apply side_quad_NoDup; lia.
  - simpl faces. repeat constructor.
    + now apply side_quad_differs_front.
    + now apply side_quad_differs_back.
    + apply Forall_forall. intros g Hg. apply in_map_iff in Hg.
      destruct Hg as [k [<- Hk]]. apply in_seq in Hk.
      apply side_quad_differs_earlier; lia.
Qed.

Lemma side_loop (k start : nat) :
  3 <= n -> start + k = n ->
  forM_ (seq start k) (fun i =>
     fi <- index (seq 0 n) i ;;
     fj <- index (seq 0 n) ((i + 1) mod n) ;;
     bj <- index (seq n n) ((i + 1) mod n) ;;
     bi <- index (seq n n) i ;;
     faces_new [fi; fj; bj; bi])
    (mkMesh V (seq 0 n :: rev (seq n n) :: map (side_quad n) (seq 0 start)))
  = Ok (tt, mkMesh V (seq 0 n :: rev (seq n n) :: map (side_quad n) (seq 0 n))).
Proof.
  intros Hn. revert start. induction k as [| k IH]; intros start E.
  - simpl. unfold ret. replace start with n by lia. reflexivity.
  - cbn [seq forM_]. unfold bind at 1.
    rewrite side_loop_step by lia.
    apply IH. lia.
Qed.

(** From three points on, the construction succeeds and its result is the
    closed form. *)
Lemma extrude_profile_run :
  3 <= n ->
  extrude_profile profile y_front y_back BMesh.new
  = Ok (tt, extruded profile y_front y_back).
Proof.
  intros Hn. unfold extrude_profile.
  unfold bind at 1. rewrite forM_verts_new.
  unfold bind at 1. rewrite forM_verts_new.
  cbn [verts faces BMesh.new app List.length].
  rewrite length_map. fold n. fold (ring y_front). fold (ring y_back). fold V.
  unfold bind at 1. rewrite faces_new_ok.
  - cbn [verts faces app].
    unfold bind at 1. rewrite faces_new_ok.
    + cbn [verts faces app]. apply (side_loop n 0 Hn). lia.
    + rewrite length_rev, length_seq. exact Hn.
    + cbn [verts]. rewrite V_length.
      apply Forall_forall. intros v Hv.
      apply in_rev, in_seq in Hv. lia.
    + apply NoDup_rev, seq_NoDup.
    + cbn [faces]. repeat constructor.
      exists n. split.
      * apply -> in_rev. apply in_seq. lia.
      * rewrite in_seq. lia.
  - rewrite length_seq. exact Hn.
  - cbn [verts]. rewrite V_length.
    apply Forall_forall. intros v Hv. apply in_seq in Hv. lia.
  - apply seq_NoDup.
  - constructor.
Qed.

Lemma extrude_profile_build :
  3 <= n ->
  BMesh.build (extrude_profile profile y_front y_back)
  = Ok (extruded profile y_front y_back).
Proof.
  intros Hn. unfold BMesh.build. now rewrite extrude_profile_run.
Qed.

End Extrusion.

(** ** Side-quad normals *)

Section Normals.

Lemma Qlen_cons {A} (a : A) (l : list A) : Qlen (a :: l) == Qlen l + 1.
Proof.
  unfold Qlen. cbn [List.length]. rewrite Nat2Z.inj_succ, <- Z.add_1_r.
  now rewrite inject_Z_plus.
Qed.

Lemma Qlen_pos {A} (l : list A) : (1 <= List.length l)%nat -> 0 < Qlen l.
Proof.
  intros H. unfold Qlen. replace 0 with (inject_Z 0) by reflexivity.
  rewrite <- Zlt_Qlt. lia.
Qed.

(** The sum of [left_of p q r] over the points [r] of a list is linear in
    the sums of their coordinates. *)
Lemma left_of_sum (p q : Q * Q) (l : list (Q * Q)) :
  Qsum (map (left_of p q) l)
  == (fst q - fst p) * (Qsum (map snd l) - Qlen l * snd p)
     - (snd q - snd p) * (Qsum (map fst l) - Qlen l * fst p).
Proof.
  induction l as [| r l IH].
  - unfold Qlen. simpl. ring.
  - cbn [map Qsum fold_right]. fold (Qsum (map (left_of p q) l)).
    fold (Qsum (map snd l)). fold (Qsum (map fst l)).
    rewrite IH, Qlen_cons. unfold left_of. ring.
Qed.

Lemma Qsum_nonneg (f : Q * Q -> Q) (l : list (Q * Q)) :
  Forall (fun r => 0 <= f r) l -> 0 <= Qsum (map f l).
Proof.
  induction 1 as [| r l Hr _ IH]; simpl; [apply Qle_refl |].
  fold (Qsum (map f l)). lra.
Qed.

Lemma Qsum_pos (f : Q * Q -> Q) (l : list (Q * Q)) :
  Forall (fun r => 0 <= f r) l -> Exists (fun r => 0 < f r) l ->
  0 < Qsum (map f l).
Proof.
  intros Hall Hex. induction Hex as [r l Hr | r l _ IH].
  - inversion_clear Hall as [| ? ? _ Hl].
    pose proof (Qsum_nonneg f l Hl). simpl. fold (Qsum (map f l)). lra.
  - inversion_clear Hall as [| ? ? Hr Hl].
    specialize (IH Hl). simpl. fold (Qsum (map f l)). lra.
Qed.

Lemma Qltb_lt (a b : Q) : Qltb a b = true <-> a < b.
Proof.
  unfold Qltb. rewrite negb_true_iff. split.
  - intros H. apply Qnot_le_lt. intros Hle.
    apply Qle_bool_iff in Hle. congruence.
  - intros H. apply not_true_is_false. intros Hle.
    apply Qle_bool_iff in Hle. lra.
Qed.

Lemma convex_ccw_edge (profile : list (Q * Q)) (i : nat) :
  convex_ccw profile = true -> (i < List.length profile)%nat ->
  0 < Qsum (map (left_of (point profile i)
                         (point profile ((i + 1) mod List.length profile)%nat))
                profile).
Proof.
  intros H Hi. unfold convex_ccw in H. rewrite forallb_forall in H.
  specialize (H i). rewrite in_seq in H.
  assert (Hin : (0 <= i < 0 + List.length profile)%nat) by lia.
  apply H in Hin. apply andb_true_iff in Hin. destruct Hin as [Hall Hex].
  apply Qsum_pos.
  - apply Forall_forall. intros r Hr. rewrite forallb_forall in Hall.
    apply Qle_bool_iff. auto.
  - apply Exists_exists. apply existsb_exists in Hex.
    destruct Hex as [r [Hr Hpos]]. exists r. split; [assumption |].
    now apply Qltb_lt.
Qed.

Variable profile : list (Q * Q).
Variables y_front y_back : Q.

Let n := List.length profile.
Let m := extruded profile y_front y_back.

Lemma vert_front (i : nat) :
  (i < n)%nat ->
  vert m i = mkVec (fst (point profile i)) y_front (snd (point profile i)).
Proof.
  intros Hi. unfold vert, m, extruded. cbn [verts].
  rewrite app_nth1 by now rewrite length_map.
  rewrite (nth_indep _ _ (mkVec (fst (0, 0)) y_front (snd (0, 0))))
    by now rewrite length_map.
  exact (map_nth (fun p : Q * Q => mkVec (fst p) y_front (snd p)) profile (0, 0) i).
Qed.

Lemma vert_back (i : nat) :
  (i < n)%nat ->
  vert m (n + i)%nat = mkVec (fst (point profile i)) y_back (snd (point profile i)).
Proof.
  intros Hi. unfold vert, m, extruded. cbn [verts].
  replace (n + i)%nat
    with (List.length (map (fun p : Q * Q => mkVec (fst p) y_front (snd p)) profile) + i)%nat
    by now rewrite length_map.
  rewrite app_nth2_plus.
  rewrite (nth_indep _ _ (mkVec (fst (0, 0)) y_back (snd (0, 0))))
    by now rewrite length_map.
  exact (map_nth (fun p : Q * Q => mkVec (fst p) y_back (snd p)) profile (0, 0) i).
Qed.

Lemma side_quad_at (i : nat) :
  (i < n)%nat -> nth_error (faces m) (2 + i)%nat = Some (side_quad n i).
Proof.
  intros Hi. unfold m, extruded. cbn [faces nth_error Nat.add]. fold n.
  rewrite nth_error_map, (nth_error_nth' (seq 0 n) 0%nat) by now rewrite length_seq.
  now rewrite seq_nth.
Qed.

(** The edge [i] of the profile, from point [i] to the next one around. *)
Let dx (i : nat) : Q :=
  fst (point profile ((i + 1) mod n)%nat) - fst (point profile i).
Let dz (i : nat) : Q :=
  snd (point profile ((i + 1) mod n)%nat) - snd (point profile i).

Lemma side_quad_normal (i : nat) :
  (2 <= n)%nat -> (i < n)%nat ->
  veq (face_normal m (side_quad n i))
      (scale (mkVec (- dz i) 0 (dx i)) (y_back - y_front)).
Proof.
  intros Hn Hi. destruct (succ_mod n i Hn Hi) as [Hj _].
  unfold side_quad, face_normal.
  rewrite (vert_front i Hi), (vert_front _ Hj), (vert_back _ Hj).
  unfold veq, cross, sub, scale, dx, dz. cbn [vx vy vz].
  repeat split; ring.
Qed.

(** The normal of a side quad against the direction from the centroid of
    the profile to the quad: [n] times their product is the sum of
    [left_of] over the profile, times [y_front - y_back]. *)
Lemma side_quad_flux (i : nat) (y : Q) :
  (2 <= n)%nat -> (i < n)%nat ->
  Qlen profile
  * dot (face_normal m (side_quad n i))
        (sub (face_centre m (side_quad n i)) (profile_centroid profile y))
  == (y_front - y_back)
     * Qsum (map (left_of (point profile i) (point profile ((i + 1) mod n)%nat))
                 profile).
Proof.
  intros Hn Hi. destruct (succ_mod n i Hn Hi) as [Hj _].
  rewrite left_of_sum.
  assert (Hpos : 0 < Qlen profile) by (apply Qlen_pos; fold n; lia).
  unfold side_quad, face_normal, face_centre, profile_centroid.
  cbn [map].
  rewrite (vert_front i Hi), (vert_front _ Hj), (vert_back _ Hj), (vert_back i Hi).
  set (N := Qlen profile) in *.
  unfold mean, dot, cross, sub, Qlen, Qsum.
  cbn [vx vy vz map fold_right List.length].
  set (Sx := fold_right Qplus 0 (map fst profile)).
  set (Sz := fold_right Qplus 0 (map snd profile)).
  change (inject_Z (Z.of_nat 4)) with 4.
  field. lra.
Qed.

End Normals.

(** ** Orientation frames of sweep segments *)

Section Frames.



(** The frame of [add_strip] is one of three pairs of axes. *)
Lemma strip_frame_cases (p1 p2 : Vec3) (w dp : Q) :
  Upright.strip_frame p1 p2 w dp = (scale X (w / 2), scale Y (dp / 2))
  \/ Upright.strip_frame p1 p2 w dp = (scale X (dp / 2), scale Z (w / 2))
  \/ Upright.strip_frame p1 p2 w dp = (scale Y (dp / 2), scale Z (w / 2)).
Proof.
  unfold Upright.strip_frame.
  destruct (abs_gt _ 0.9); [now left |].
  destruct (abs_gt _ 0.9); [right; now left | right; now right].
Qed.

Lemma strip_frame_orthogonal (p1 p2 : Vec3) (w dp : Q) :
  dot (fst (Upright.strip_frame p1 p2 w dp)) (snd (Upright.strip_frame p1 p2 w dp)) == 0.
Proof.
  destruct (strip_frame_cases p1 p2 w dp) as [-> | [-> | ->]];
    unfold dot, scale, X, Y, Z; cbn [fst snd vx vy vz]; ring.
Qed.



End Frames.

(** ** The scene store *)

Section Store.
Local Open Scope nat_scope.

Lemma fresh_above (objs : list Object) (o : Object) :
  In o objs -> obj_id o < fresh objs.
Proof.
  induction objs as [| o' objs IH]; [contradiction |].
  unfold fresh. cbn [fold_right]. fold (fresh objs).
  intros [-> | H]; [lia |]. specialize (IH H). lia.
Qed.

Lemma is_live_last (objs : list Object) (o : Object) :
  is_live (objs ++ [o]) (obj_id o) = true.
Proof.
  unfold is_live. rewrite existsb_app. simpl.
  now rewrite Nat.eqb_refl, orb_true_r.
Qed.

(** Assigning an attribute of the object created last changes that object
    only. *)
Lemma update_last (objs : list Object) (o : Object) (a : option handle)
      (sel : list handle) (f : list Object -> Object -> Object) :
  obj_id o = fresh objs ->
  update (obj_id o) f (mkScene (objs ++ [o]) a sel)
  = Ok (tt, mkScene (objs ++ [f (objs ++ [o]) o]) a sel).
Proof.
  intros Hid. unfold update. cbn [objects active selected].
  rewrite is_live_last, map_app. cbn [map]. rewrite Nat.eqb_refl.
  assert (Hm : map (fun o' => if obj_id o' =? obj_id o
                              then f (objs ++ [o]) o' else o') objs = objs).
  { transitivity (map (fun o' : Object => o') objs); [| apply map_id].
    apply map_ext_in. intros o' Ho'. apply fresh_above in Ho'.
    destruct (Nat.eqb_spec (obj_id o') (obj_id o)); [lia | reflexivity]. }
  now rewrite Hm.
Qed.

Lemma filter_none {A} (f : A -> bool) (l : list A) :
  (forall x, In x l -> f x = false) -> filter f l = [].
Proof.
  induction l as [| x l IH]; intros H; [reflexivity |].
  cbn [filter]. rewrite (H x (or_introl eq_refl)).
  apply IH. intros y Hy. apply H. now right.
Qed.

(** [clear_scene] empties any scene. *)
Lemma clear_scene_run (s : Scene) : clear_scene s = Ok (tt, empty_scene).
Proof.
  unfold clear_scene, bind, select_all_select, object_delete, modify.
  cbn [objects active selected].
  assert (E : filter (fun o => negb (is_selected
                 (mkScene (objects s) (active s) (map obj_id (objects s))) o))
                (objects s) = []).
  { apply filter_none. intros o Ho.
    apply negb_false_iff. unfold is_selected. cbn [selected].
    apply existsb_exists. exists (obj_id o). split.
    - now apply in_map.
    - apply Nat.eqb_refl. }
  rewrite E. unfold empty_scene. destruct (active s); reflexivity.
Qed.

Lemma build_variant_any_scene (v : Variant) (s : Scene) :
  build_variant v s = build_variant v empty_scene.
Proof.
  destruct v; cbn [build_variant];
    unfold Upright.create_cabinet, Cocktail.create_cocktail_cabinet,
           Driving.create_driving_cabinet, LightGun.create_lightgun_cabinet;
    unfold bind at 1; rewrite clear_scene_run;
    symmetry; unfold bind at 1; rewrite clear_scene_run; reflexivity.
Qed.

End Store.

(** ** Blocks of new objects *)

Section Blocks.
Local Open Scope nat_scope.

Lemma fresh_app (a b : list Object) : fresh (a ++ b) = Nat.max (fresh a) (fresh b).
Proof.
  induction a as [| o a IH]; [reflexivity |].
  cbn [app]. unfold fresh in *. cbn [fold_right]. rewrite IH. lia.
Qed.

Lemma fresh_block (objs news : list Object) :
  map obj_id news = seq (fresh objs) (List.length news) ->
  fresh (objs ++ news) = fresh objs + List.length news.
Proof.
  revert objs. induction news as [| o news IH]; intros objs H.
  - rewrite app_nil_r. cbn. lia.
  - cbn [map List.length seq] in H. injection H as Hid Hrest.
    replace (objs ++ o :: news) with ((objs ++ [o]) ++ news)
      by now rewrite <- app_assoc.
    assert (Hf : fresh (objs ++ [o]) = S (fresh objs)).
    { rewrite fresh_app. unfold fresh at 2. cbn [fold_right]. lia. }
    rewrite IH; rewrite Hf; [cbn [List.length]; lia | exact Hrest].
Qed.

Lemma is_live_in (objs : list Object) (h : handle) :
  In h (map obj_id objs) -> is_live objs h = true.
Proof.
  intros H. apply in_map_iff in H. destruct H as [o [<- Ho]].
  unfold is_live. apply existsb_exists. exists o. split; [assumption | apply Nat.eqb_refl].
Qed.

Lemma filter_all {A} (f : A -> bool) (l : list A) :
  (forall x, In x l -> f x = true) -> filter f l = l.
Proof.
  induction l as [| x l IH]; intros H; [reflexivity |].
  cbn [filter]. rewrite (H x (or_introl eq_refl)). f_equal.
  apply IH. intros y Hy. apply H. now right.
Qed.

Lemma forM_select_set (ids : list handle) (objs : list Object)
      (a : option handle) (sel : list handle) :
  (forall h, In h ids -> is_live objs h = true) ->
  forM_ ids select_set (mkScene objs a sel) = Ok (tt, mkScene objs a (sel ++ ids)).
Proof.
  revert sel. induction ids as [| h ids IH]; intros sel H.
  - cbn. unfold ret. now rewrite app_nil_r.
  - cbn [forM_]. unfold bind at 1.
    unfold select_set at 1. cbn [objects active selected].
    rewrite (H h (or_introl eq_refl)).
    rewrite IH by (intros h' Hh'; apply H; now right).
    now rewrite <- app_assoc.
Qed.

Lemma object_join_eq (s : Scene) (a : handle) :
  active s = Some a ->
  object_join s
  = Ok (tt, mkScene
              (map (fun o =>
                      if obj_id o =? a then
                        mkObject (obj_id o) (obj_name o) (obj_parent o) (obj_location o)
                          (obj_axis o)
                          (obj_data o ++ List.concat (map obj_data
                             (filter (fun o => is_selected s o && negb (obj_id o =? a))
                                     (objects s))))
                      else o)
                   (filter (fun o => negb (is_selected s o && negb (obj_id o =? a)))
                           (objects s)))
              (Some a) [a]).
Proof. intros H. unfold object_join. now rewrite H. Qed.

(** Joining a block of objects created last, the first of them active. *)
Lemma object_join_block (objs rest : list Object) (n0 : Object) :
  map obj_id (n0 :: rest) = seq (fresh objs) (S (List.length rest)) ->
  object_join (mkScene (objs ++ n0 :: rest) (Some (obj_id n0)) (map obj_id (n0 :: rest)))
  = Ok (tt, mkScene
              (objs ++ [mkObject (obj_id n0) (obj_name n0) (obj_parent n0)
                          (obj_location n0) (obj_axis n0)
                          (obj_data n0 ++ List.concat (map obj_data rest))])
              (Some (obj_id n0)) [obj_id n0]).
Proof.
  intros Hids.
  set (s := mkScene (objs ++ n0 :: rest) (Some (obj_id n0)) (map obj_id (n0 :: rest))).
  cbn [map List.length seq] in Hids. injection Hids as Hid0 Hrest.
  assert (Hold : forall o, In o objs -> obj_id o < fresh objs)
    by (intros o; apply fresh_above).
  assert (Hnew : forall r, In r rest -> fresh objs < obj_id r).
  { intros r Hr. assert (Hin : In (obj_id r) (map obj_id rest)) by now apply in_map.
    rewrite Hrest in Hin. apply in_seq in Hin. lia. }
  assert (Hgone_old : forall o, In o objs ->
            is_selected s o && negb (obj_id o =? obj_id n0) = false).
  { intros o Ho. unfold is_selected. cbn [selected s].
    apply andb_false_iff. left. apply not_true_is_false. intros E.
    apply existsb_exists in E. destruct E as [h [Hh E]]. apply Nat.eqb_eq in E.
    specialize (Hold o Ho). cbn [map] in Hh. destruct Hh as [<- | Hh]; [lia |].
    rewrite Hrest in Hh. apply in_seq in Hh. lia. }
  assert (Hgone_0 : is_selected s n0 && negb (obj_id n0 =? obj_id n0) = false).
  { now rewrite Nat.eqb_refl, andb_false_r. }
  assert (Hgone_new : forall r, In r rest ->
            is_selected s r && negb (obj_id r =? obj_id n0) = true).
  { intros r Hr. unfold is_selected. cbn [selected s].
    apply andb_true_iff. split.
    - apply existsb_exists. exists (obj_id r). split; [| apply Nat.eqb_refl].
      right. now apply in_map.
    - apply negb_true_iff. apply Nat.eqb_neq. specialize (Hnew r Hr). lia. }
  rewrite (object_join_eq s (obj_id n0) eq_refl).
  assert (Hkept : filter (fun o => negb (is_selected s o && negb (obj_id o =? obj_id n0)))
                         (objects s) = objs ++ [n0]).
  { cbn [objects s]. rewrite filter_app. cbn [filter]. rewrite Hgone_0. cbn [negb].
    rewrite filter_all by (intros o Ho; now rewrite Hgone_old).
    rewrite filter_none by (intros o Ho; now rewrite Hgone_new). reflexivity. }
  assert (Hmerged : filter (fun o => is_selected s o && negb (obj_id o =? obj_id n0))
                           (objects s) = rest).
  { cbn [objects s]. rewrite filter_app. cbn [filter]. rewrite Hgone_0.
    rewrite filter_none by (intros o Ho; now apply Hgone_old).
    now rewrite filter_all by (intros o Ho; now apply Hgone_new). }
  rewrite Hkept, Hmerged, map_app. cbn [map]. rewrite Nat.eqb_refl.
  do 4 f_equal.
  transitivity (map (fun o : Object => o) objs); [| apply map_id].
  apply map_ext_in. intros o Ho. specialize (Hold o Ho).
  destruct (Nat.eqb_spec (obj_id o) (obj_id n0)); [lia | reflexivity].
Qed.

Lemma set_name_last (objs : list Object) (o : Object) (a : option handle)
      (sel : list handle) (n : string) :
  obj_id o = fresh objs ->
  set_name (obj_id o) n (mkScene (objs ++ [o]) a sel)
  = Ok (tt, mkScene (objs ++ [mkObject (obj_id o) (unique_name objs n) (obj_parent o)
                                (obj_location o) (obj_axis o) (obj_data o)])
                    a sel).
Proof.
  intros Hid. unfold set_name. rewrite update_last by assumption.
  do 6 f_equal. rewrite filter_app. cbn [filter]. rewrite Nat.eqb_refl. cbn [negb].
  rewrite app_nil_r. f_equal. apply filter_all. intros o' Ho'. apply fresh_above in Ho'.
  apply negb_true_iff. apply Nat.eqb_neq. lia.
Qed.

(** [join_segments] on a block of objects created last: one object is
    left, the first of the block, with the geometry of all and the name
    t-molding. *)
Lemma join_segments_block (objs rest : list Object) (n0 : Object)
      (a : option handle) (sel : list handle) :
  map obj_id (n0 :: rest) = seq (fresh objs) (S (List.length rest)) ->
  join_segments (map obj_id (n0 :: rest)) (mkScene (objs ++ n0 :: rest) a sel)
  = Ok (Some (obj_id n0),
        mkScene (objs ++ [mkObject (obj_id n0) (unique_name objs "t-molding")
                            (obj_parent n0) (obj_location n0) (obj_axis n0)
                            (obj_data n0 ++ List.concat (map obj_data rest))])
                (Some (obj_id n0)) [obj_id n0]).
Proof.
  intros Hids.
  assert (Hlive : forall h, In h (map obj_id (n0 :: rest)) ->
                            is_live (objs ++ n0 :: rest) h = true).
  { intros h Hh. apply is_live_in. rewrite map_app. apply in_or_app. now right. }
  cbn [map join_segments]. cbn [map] in Hlive.
  unfold bind at 1. unfold select_all_deselect, modify. cbn [objects active].
  unfold bind at 1. rewrite forM_select_set by exact Hlive. cbn [app].
  unfold bind at 1. unfold set_active. cbn [objects active selected].
  rewrite (Hlive (obj_id n0) (or_introl eq_refl)).
  unfold bind at 1.
  pose proof (object_join_block objs rest n0 Hids) as J. cbn [map] in J. rewrite J.
  unfold bind at 1. unfold active_object. cbn [active].
  unfold bind at 1.
  cbn [map List.length seq] in Hids. injection Hids as Hid0 _.
  match goal with
  | |- context [set_name ?h ?n (mkScene (objs ++ [?o]) ?a' ?sel')] =>
      pose proof (set_name_last objs o a' sel' n Hid0) as U; cbn [obj_id] in U; rewrite U
  end.
  reflexivity.
Qed.

Lemma add_object_snoc (objs news : list Object) (n : string) (d : list Geometry)
      (l : Vec3) (a : option handle) (sel : list handle) :
  map obj_id news = seq (fresh objs) (List.length news) ->
  add_object n d l (mkScene (objs ++ news) a sel)
  = Ok (tt, mkScene (objs ++ news
                     ++ [mkObject (fresh objs + List.length news)
                           (unique_name (objs ++ news) n) None l None d])
                    (Some (fresh objs + List.length news))
                    [fresh objs + List.length news]).
Proof.
  intros H. unfold add_object. cbn [objects].
  rewrite (fresh_block objs news H), <- app_assoc. reflexivity.
Qed.

Lemma select_set_run (h : handle) (s : Scene) :
  is_live (objects s) h = true ->
  select_set h s = Ok (tt, mkScene (objects s) (active s) (selected s ++ [h])).
Proof. intros H. unfold select_set. now rewrite H. Qed.

Lemma set_active_run (h : handle) (s : Scene) :
  is_live (objects s) h = true ->
  set_active h s = Ok (tt, mkScene (objects s) (Some h) (selected s)).
Proof. intros H. unfold set_active. now rewrite H. Qed.

Lemma concat_singletons {A} (c : A) (l : list Object) (data : Object -> list A) :
  Forall (fun o => data o = [c]) l ->
  List.concat (map data l) = repeat c (List.length l).
Proof.
  induction 1 as [| o l Ho _ IH]; [reflexivity |].
  cbn [map List.concat List.length repeat]. now rewrite Ho, IH.
Qed.

(** [transform_apply] after an add operator: the object added last is the
    only selected one, and the only one that changes. *)
Lemma transform_apply_snoc (objs news : list Object) (o : Object)
      (a : option handle) :
  map obj_id news = seq (fresh objs) (List.length news) ->
  obj_id o = fresh objs + List.length news ->
  transform_apply (mkScene (objs ++ news ++ [o]) a [obj_id o])
  = Ok (tt, mkScene (objs ++ news ++ [applied o]) a [obj_id o]).
Proof.
  intros Hids Hid. unfold transform_apply, modify.
  cbn [objects active selected]. do 3 f_equal.
  rewrite !map_app. cbn [map].
  unfold is_selected at 3. cbn [selected existsb]. rewrite Nat.eqb_refl. cbn [orb].
  f_equal; [| f_equal].
  - transitivity (map (fun o' : Object => o') objs); [| apply map_id].
    apply map_ext_in. intros o' Ho'. apply fresh_above in Ho'.
    unfold is_selected. cbn [selected existsb].
    destruct (Nat.eqb_spec (obj_id o') (obj_id o)); [lia | reflexivity].
  - transitivity (map (fun o' : Object => o') news); [| apply map_id].
    apply map_ext_in. intros o' Ho'.
    assert (Hin : In (obj_id o') (map obj_id news)) by now apply in_map.
    rewrite Hids in Hin. apply in_seq in Hin.
    unfold is_selected. cbn [selected existsb].
    destruct (Nat.eqb_spec (obj_id o') (obj_id o)); [lia | reflexivity].
Qed.

Lemma transform_apply_last (objs : list Object) (o : Object) (a : option handle) :
  obj_id o = fresh objs ->
  transform_apply (mkScene (objs ++ [o]) a [obj_id o])
  = Ok (tt, mkScene (objs ++ [applied o]) a [obj_id o]).
Proof.
  intros Hid. apply (transform_apply_snoc objs [] o a); [reflexivity |].
  cbn [List.length]. lia.
Qed.

End Blocks.

(** ** Path sweep *)

Section Sweep.
Local Open Scope nat_scope.

Lemma create_tube_segment_skipped (p1 p2 : Vec3) (r : Q) (s : Scene) :
  far p1 p2 = false -> create_tube_segment p1 p2 r s = Ok (None, s).
Proof.
  unfold far, create_tube_segment. intros H.
  apply negb_false_iff in H. now rewrite H.
Qed.

(** A segment that is built is one new cylinder at the middle of the
    segment, turned about [tube_rot_axis] when the guard of the script
    lets it; nothing else changes. *)
Lemma create_tube_segment_built (p1 p2 : Vec3) (r : Q) (s : Scene) :
  far p1 p2 = true ->
  create_tube_segment p1 p2 r s
  = Ok (Some (fresh (objects s)),
        mkScene (objects s
                 ++ [mkObject (fresh (objects s))
                       (unique_name (objects s) "Cylinder") None
                       (midpoint p1 p2) (tube_axis p1 p2) [Prim Cylinder]])
                (Some (fresh (objects s))) [fresh (objects s)]).
Proof.
  unfold far. intros H. apply negb_true_iff in H.
  unfold create_tube_segment. rewrite H.
  unfold bind, primitive_cylinder_add, add_object, active_object.
  cbn [active objects]. unfold tube_axis, midpoint.
  destruct (tube_rot_axis_usable p1 p2); [| reflexivity].
  unfold set_rotation_axis.
  match goal with
  | |- context [update ?h ?f (mkScene (?objs ++ [?o]) ?a ?sel)] =>
      pose proof (update_last objs o a sel f eq_refl) as U;
      cbn [obj_id] in U; rewrite U
  end.
  reflexivity.
Qed.

Lemma nth_error_tl {A} (l : list A) (i : nat) :
  nth_error (tl l) i = nth_error l (i + 1).
Proof.
  rewrite Nat.add_1_r. destruct l; [now destruct i | reflexivity].
Qed.

Lemma nth_error_combine_some {A B} (l : list A) (l' : list B) (i : nat) (a : A) (b : B) :
  nth_error (combine l l') i = Some (a, b) ->
  nth_error l i = Some a /\ nth_error l' i = Some b.
Proof.
  revert l' i. induction l as [| x l IH]; intros [| y l'] [| i] H;
    cbn in *; try discriminate.
  - injection H as -> ->. now split.
  - now apply IH.
Qed.

Lemma skipn_cons_nth_error {A} (l : list A) (a : nat) (x : A) (rest : list A) :
  skipn a l = x :: rest -> nth_error l a = Some x /\ skipn (S a) l = rest.
Proof.
  revert a. induction l as [| y l IH]; intros [| a] H; cbn in *; try discriminate.
  - injection H as -> ->. now split.
  - now apply IH.
Qed.

(** The loop over the consecutive pairs never fails.  It appends one
    cylinder to the scene for each pair that is [far], in the order of the
    path, and touches no other object; the handles it returns are those of
    the cylinders. *)
Lemma sweep_loop_objects (path : list Vec3) (radius : Q) (pairs : list (Vec3 * Vec3)) :
  forall (a : nat) (segments : list handle) (s : Scene),
    skipn a (consecutive path) = pairs ->
    exists news act sel,
      sweep_loop path radius (seq a (List.length pairs)) segments s
      = Ok (segments ++ map obj_id news, mkScene (objects s ++ news) act sel)
      /\ map obj_id news = seq (fresh (objects s)) (List.length news)
      /\ map placement news
         = map tube_placement (filter (fun pq => far (fst pq) (snd pq)) pairs)
      /\ Forall (fun o => obj_parent o = None /\ obj_data o = [Prim Cylinder]) news
      /\ (news = [] -> act = active s /\ sel = selected s).
Proof.
  induction pairs as [| [p q] pairs IH]; intros a segments s Hskip.
  - exists [], (active s), (selected s). rewrite !app_nil_r.
    repeat split; try constructor. now destruct s.
  - apply skipn_cons_nth_error in Hskip. destruct Hskip as [Hnth Hrest].
    apply nth_error_combine_some in Hnth. destruct Hnth as [Hp Hq].
    rewrite nth_error_tl in Hq.
    cbn [List.length seq sweep_loop].
    unfold bind at 1. unfold index at 1. rewrite Hp. unfold ret at 1.
    unfold bind at 1. unfold index at 1. rewrite Hq. unfold ret at 1.
    unfold bind at 1. cbn [filter fst snd].
    destruct (far p q) eqn:Hfar.
    + rewrite (create_tube_segment_built p q radius s Hfar).
      match goal with
      | |- context [sweep_loop _ _ _ ?segs (mkScene (objects s ++ [?c]) ?ac ?se)] =>
          destruct (IH (S a) segs (mkScene (objects s ++ [c]) ac se) Hrest)
            as [news [act [sel [Hrun [Hids [Hpl [Hall _]]]]]]];
          exists (c :: news), act, sel
      end.
      cbn [objects] in *.
      rewrite Hrun, <- !app_assoc. cbn [app map obj_id List.length seq].
      split; [reflexivity |].
      split.
      { f_equal. rewrite Hids. f_equal.
        rewrite fresh_app. unfold fresh at 2. cbn [fold_right obj_id]. lia. }
      split; [now rewrite Hpl |].
      split; [constructor; [now split | exact Hall] | discriminate].
    + rewrite (create_tube_segment_skipped p q radius s Hfar).
      destruct (IH (S a) segments s Hrest) as [news [act [sel H]]].
      exists news, act, sel. exact H.
Qed.

Lemma consecutive_length (path : list Vec3) :
  List.length (consecutive path) = List.length path - 1.
Proof.
  unfold consecutive. rewrite length_combine.
  destruct path; cbn [tl List.length]; lia.
Qed.

(** The sweep of a whole path, from any list of segments and any scene. *)
Lemma sweep_path_objects (path : list Vec3) (radius : Q)
      (segments : list handle) (s : Scene) :
  exists news act sel,
    sweep_path path radius segments s
    = Ok (segments ++ map obj_id news, mkScene (objects s ++ news) act sel)
    /\ map obj_id news = seq (fresh (objects s)) (List.length news)
    /\ map placement news = map tube_placement (far_pairs path)
    /\ Forall (fun o => obj_parent o = None /\ obj_data o = [Prim Cylinder]) news
    /\ (news = [] -> act = active s /\ sel = selected s).
Proof.
  unfold sweep_path, far_pairs. rewrite <- consecutive_length.
  apply (sweep_loop_objects path radius (consecutive path) 0 segments s eq_refl).
Qed.

Lemma placements_length (news : list Object) (pairs : list (Vec3 * Vec3)) :
  map placement news = map tube_placement pairs ->
  List.length news = List.length pairs.
Proof.
  intros H. apply (f_equal (@List.length _)) in H. now rewrite !length_map in H.
Qed.






(** The join of a block of cylinders created last. *)
Lemma join_cylinders (objs news : list Object) (a : option handle) (sel : list handle) :
  news <> [] ->
  map obj_id news = seq (fresh objs) (List.length news) ->
  Forall (fun o => obj_parent o = None /\ obj_data o = [Prim Cylinder]) news ->
  exists o,
    join_segments (map obj_id news) (mkScene (objs ++ news) a sel)
    = Ok (Some (obj_id o), mkScene (objs ++ [o]) (Some (obj_id o)) [obj_id o])
    /\ obj_id o = fresh objs
    /\ obj_name o = unique_name objs "t-molding"
    /\ obj_parent o = None
    /\ obj_data o = repeat (Prim Cylinder) (List.length news).
Proof.
  intros Hne Hids Hall. destruct news as [| n0 rest]; [congruence |].
  cbn [List.length] in Hids.
  exists (mkObject (obj_id n0) (unique_name objs "t-molding") (obj_parent n0)
            (obj_location n0) (obj_axis n0)
            (obj_data n0 ++ List.concat (map obj_data rest))).
  split; [apply (join_segments_block objs rest n0 a sel Hids) |].
  cbn [obj_id obj_name obj_parent obj_data].
  inversion Hall as [| ? ? [Hp Hd] Hrest]; subst.
  cbn [map seq] in Hids. injection Hids as Hid _.
  repeat split; try assumption.
  rewrite Hd. cbn [List.length repeat app]. f_equal.
  apply concat_singletons. eapply Forall_impl; [| exact Hrest]. now intros o [_ H].
Qed.

Lemma length_zero_nil {A} (l : list A) : List.length l = 0 -> l = [].
Proof. now destruct l. Qed.

End Sweep.

(** ** Scenes of the four variants *)

Section Scenes.
Local Open Scope nat_scope.

(** Whatever the scene it starts in, a script ends with the same scene. *)
Lemma build_variant_run (v : Variant) (s : Scene) :
  build_variant v s = Ok (built_root v, built_scene v).
Proof.
  rewrite build_variant_any_scene.
  destruct v; vm_compute; reflexivity.
Qed.

Lemma rooted_atb_sound (s : Scene) (root : handle) :
  rooted_atb s root = true -> rooted_at s root.
Proof.
  unfold rooted_atb, rooted_at. rewrite andb_true_iff. intros [Hroot Hall].
  split.
  - destruct (find_by_name s root_name) as [| o [| o' l]]; try discriminate.
    exists o. apply andb_true_iff in Hroot. destruct Hroot as [Hid Hpar].
    apply Nat.eqb_eq in Hid. destruct (obj_parent o); [discriminate |].
    now repeat split.
  - apply Forall_forall. intros o Ho. rewrite forallb_forall in Hall.
    specialize (Hall o Ho). apply orb_true_iff in Hall.
    destruct Hall as [Hid | Hchain].
    + left. now apply Nat.eqb_eq.
    + right. destruct (chain_end s (List.length (objects s)) (obj_id o));
        [| discriminate].
      apply Nat.eqb_eq in Hchain. now subst.
Qed.

Lemma has_names_incl (s : Scene) (l : list string) :
  forallb (has_name s) l = true -> incl l (names s).
Proof.
  intros H n Hn. rewrite forallb_forall in H. specialize (H n Hn).
  unfold has_name in H. apply existsb_exists in H.
  destruct H as [n' [Hin E]]. apply String.eqb_eq in E. now subst.
Qed.

Lemma find_by_id_last (objs : list Object) (o : Object)
      (a : option handle) (sel : list handle) :
  obj_id o = fresh objs ->
  find_by_id (mkScene (objs ++ [o]) a sel) (fresh objs) = Some o.
Proof.
  intros Hid. unfold find_by_id. cbn [objects].
  assert (H : forall l, (forall o', In o' l -> obj_id o' < fresh objs) ->
              find (fun o' => obj_id o' =? fresh objs) (l ++ [o]) = Some o).
  { induction l as [| o' l IH]; intros Hl; cbn [app find].
    - now rewrite Hid, Nat.eqb_refl.
    - pose proof (Hl o' (or_introl eq_refl)).
      destruct (Nat.eqb_spec (obj_id o') (fresh objs)); [lia |].
      apply IH. intros o'' Ho''. apply Hl. now right. }
  apply H. intros o' Ho'. now apply fresh_above.
Qed.

End Scenes.

(** ** Cutout panels *)

Section Cutout.
Local Open Scope nat_scope.

(** The construction never fails, whatever the five dimensions. *)
Lemma bezel_mesh_xz_build (hw hh chw chh t : Q) :
  BMesh.build (bezel_mesh_xz hw hh chw chh t)
  = Ok (mkMesh (bezel_verts_xz hw hh chw chh t) bezel_face_list).
Proof. reflexivity. Qed.

Lemma bezel_mesh_xy_build (hw hh chw chh t : Q) :
  BMesh.build (bezel_mesh_xy hw hh chw chh t)
  = Ok (mkMesh (bezel_verts_xy hw hh chw chh t) bezel_face_list).
Proof. reflexivity. Qed.

(** [obj = bpy.data.objects.new(name, mesh)] after a construction that
    succeeds: the object returned carries the mesh. *)
Lemma new_mesh_object (mesh : BM unit) (m : Mesh) (name : string) (s : Scene) :
  BMesh.build mesh = Ok m ->
  exists h s',
    (mesh' <- bmesh mesh ;; obj <- objects_new_link name mesh' ;; ret obj) s
    = Ok (h, s')
    /\ mesh_of s' h = Some m.
Proof.
  intros Hm. unfold bind, bmesh. rewrite Hm. unfold objects_new_link, ret.
  eexists. eexists. split; [reflexivity |].
  unfold mesh_of. now rewrite find_by_id_last.
Qed.

End Cutout.

(** ** Surfaces and strips *)

Section Surfaces.
Local Open Scope nat_scope.

Lemma in_directed_edges (f : Face) (k a b : nat) :
  nth_error f k = Some a ->
  nth_error (tl f ++ firstn 1 f) k = Some b ->
  In (a, b) (directed_edges f).
Proof.
  unfold directed_edges. generalize (tl f ++ firstn 1 f). intros g.
  revert g k. induction f as [| x f IH]; intros [| y g] [| k] Ha Hb;
    cbn in *; try discriminate.
  - injection Ha as ->. injection Hb as ->. now left.
  - right. eapply IH; eassumption.
Qed.

Lemma front_cap_edge (n i : nat) :
  2 <= n -> i < n -> In (i, (i + 1) mod n) (directed_edges (seq 0 n)).
Proof.
  intros Hn Hi. apply (in_directed_edges _ i).
  - rewrite (nth_error_nth' _ 0) by now rewrite length_seq. now rewrite seq_nth.
  - destruct n as [| n]; [lia |]. cbn [seq tl firstn].
    destruct (Nat.eq_dec i n) as [-> | Hne].
    + rewrite nth_error_app2 by (rewrite length_seq; lia).
      rewrite length_seq, Nat.sub_diag.
      replace ((n + 1) mod S n) with 0; [reflexivity |].
      replace (n + 1) with (S n) by lia. now rewrite Nat.Div0.mod_same.
    + rewrite nth_error_app1 by (rewrite length_seq; lia).
      rewrite (nth_error_nth' _ 0) by (rewrite length_seq; lia).
      rewrite seq_nth by lia. rewrite Nat.mod_small by lia. f_equal. lia.
Qed.

Lemma side_quad_edge (n i : nat) :
  In (i, (i + 1) mod n) (directed_edges (side_quad n i)).
Proof. unfold side_quad, directed_edges. cbn. now left. Qed.

Lemma count_edge_in (e : nat * nat) (l : list (nat * nat)) :
  In e l -> 1 <= count_edge e l.
Proof.
  intros H. unfold count_edge.
  assert (Hin : In e (filter (edge_eqb e) l)).
  { apply filter_In. split; [assumption |]. unfold edge_eqb. now rewrite !Nat.eqb_refl. }
  destruct (filter (edge_eqb e) l); [contradiction | cbn; lia].
Qed.

Lemma count_edge_app (e : nat * nat) (l l' : list (nat * nat)) :
  count_edge e (l ++ l') = count_edge e l + count_edge e l'.
Proof. unfold count_edge. now rewrite filter_app, length_app. Qed.

Lemma extruded_not_oriented (profile : list (Q * Q)) (yf yb : Q) :
  3 <= List.length profile ->
  closed_oriented (faces (extruded profile yf yb)) = false.
Proof.
  intros Hn. set (n := List.length profile) in *.
  unfold closed_oriented. cbv zeta.
  apply not_true_is_false. intros H. rewrite forallb_forall in H.
  set (es := flat_map directed_edges (faces (extruded profile yf yb))) in *.
  assert (Hfront : In (0, (0 + 1) mod n) (directed_edges (seq 0 n)))
    by (apply front_cap_edge; lia).
  assert (Hquad : In (0, (0 + 1) mod n)
                     (flat_map directed_edges (map (side_quad n) (seq 0 n)))).
  { apply in_flat_map. exists (side_quad n 0). split.
    - apply in_map. apply in_seq. lia.
    - apply side_quad_edge. }
  assert (Hes : es = directed_edges (seq 0 n)
                     ++ directed_edges (rev (seq n n))
                     ++ flat_map directed_edges (map (side_quad n) (seq 0 n))).
  { unfold es, extruded. cbn [faces flat_map]. fold n. reflexivity. }
  assert (Hin : In (0, (0 + 1) mod n) es)
    by (rewrite Hes; apply in_or_app; now left).
  specialize (H _ Hin). apply andb_true_iff in H. destruct H as [H _].
  apply Nat.eqb_eq in H. rewrite Hes, !count_edge_app in H.
  apply count_edge_in in Hfront. apply count_edge_in in Hquad. lia.
Qed.

Lemma add_strip_skipped (p1 p2 : Vec3) (w d : Q) (bm : Mesh) :
  far p1 p2 = false -> Upright.add_strip p1 p2 w d bm = Ok (tt, bm).
Proof.
  unfold far, Upright.add_strip. intros H. apply negb_false_iff in H.
  cbv zeta. now rewrite H.
Qed.

Ltac differs_by v :=
  exists v; split; [cbn [In]; tauto | cbn [In]; intuition lia].

Ltac differs_new :=
  match goal with
  | |- differs_from [?a; ?b; ?c; ?d] _ =>
      first [differs_by a | differs_by b | differs_by c | differs_by d]
  end.

Ltac differs_old Hrange :=
  apply Forall_forall; intros g Hg;
  rewrite Forall_forall in Hrange; specialize (Hrange g Hg);
  rewrite Forall_forall in Hrange;
  match goal with
  | |- differs_from (?a :: _) _ =>
      exists a; split; [now left | intros Hin; specialize (Hrange _ Hin); lia]
  end.

Ltac new_face Hrange :=
  rewrite faces_new_ok;
  [ cbn [verts faces]
  | cbn [List.length]; lia
  | cbn [verts]; rewrite !length_app; cbn [List.length];
    repeat (apply Forall_cons; [lia |]); apply Forall_nil
  | repeat constructor; cbn [In]; intuition lia
  | cbn [faces]; rewrite <- ?app_assoc; cbn [app];
    first [ apply Forall_app; split;
            [ differs_old Hrange
            | repeat (constructor; [differs_new |]); constructor ]
          | differs_old Hrange ] ].

Lemma add_strip_built (p1 p2 : Vec3) (w d : Q) (bm : Mesh) :
  far p1 p2 = true ->
  faces_in_range bm ->
  Upright.add_strip p1 p2 w d bm
  = Ok (tt, mkMesh (verts bm
                    ++ strip_box_verts p1 p2
                         (fst (Upright.strip_frame p1 p2 w d))
                         (snd (Upright.strip_frame p1 p2 w d)))
                   (faces bm ++ strip_box_faces (List.length (verts bm)))).
Proof.
  unfold far. intros Hfar Hrange. apply negb_true_iff in Hfar.
  destruct bm as [V F]. unfold faces_in_range in Hrange. cbn [verts faces] in *.
  unfold Upright.add_strip. cbv zeta. rewrite Hfar.
  set (perp1 := fst (Upright.strip_frame p1 p2 w d)).
  set (perp2 := snd (Upright.strip_frame p1 p2 w d)).
  do 8 (unfold bind at 1; unfold verts_new at 1; cbn [verts faces]).
  rewrite !length_app. cbn [List.length].
  set (n := List.length V) in *.
  do 5 (unfold bind at 1; new_face Hrange).
  new_face Hrange.
  rewrite <- !app_assoc. cbn [app].
  unfold strip_box_verts, strip_box_faces.
  repeat (f_equal; try lia).
Qed.

Lemma strip_box_in_range (bm : Mesh) (vs : list Vec3) :
  faces_in_range bm -> List.length vs = 8 ->
  faces_in_range (mkMesh (verts bm ++ vs)
                         (faces bm ++ strip_box_faces (List.length (verts bm)))).
Proof.
  intros Hrange Hvs. unfold faces_in_range in *. cbn [verts faces].
  rewrite length_app, Hvs. apply Forall_app. split.
  - eapply Forall_impl; [| exact Hrange]. intros f Hf.
    eapply Forall_impl; [| exact Hf]. intros v Hv. cbn beta in *. lia.
  - unfold strip_box_faces.
    repeat (apply Forall_cons; [repeat (apply Forall_cons; [lia |]); apply Forall_nil |]).
    apply Forall_nil.
Qed.

(** The loop over the strips: eight vertices and six faces for each strip
    that is long enough, nothing for the others. *)
Lemma strips_loop (w d : Q) (strips : list (Vec3 * Vec3)) :
  forall bm, faces_in_range bm ->
    exists bm',
      forM_ strips (fun s => Upright.add_strip (fst s) (snd s) w d) bm = Ok (tt, bm')
      /\ faces_in_range bm'
      /\ List.length (verts bm')
         = List.length (verts bm)
           + 8 * List.length (filter (fun s => far (fst s) (snd s)) strips)
      /\ List.length (faces bm')
         = List.length (faces bm)
           + 6 * List.length (filter (fun s => far (fst s) (snd s)) strips).
Proof.
  induction strips as [| [p1 p2] strips IH]; intros bm Hrange.
  - exists bm. cbn. repeat split; try assumption; lia.
  - cbn [forM_ filter fst snd]. unfold bind at 1.
    destruct (far p1 p2) eqn:Hfar.
    + rewrite (add_strip_built p1 p2 w d bm Hfar Hrange).
      match goal with
      | |- context [forM_ _ _ ?bm1] =>
          destruct (IH bm1) as [bm' [Hrun [Hr [Hv Hf]]]];
          [ apply strip_box_in_range; [assumption | reflexivity] |]
      end.
      exists bm'. split; [exact Hrun |]. split; [exact Hr |].
      rewrite Hv, Hf. cbn [verts faces]. rewrite !length_app.
      cbn [List.length strip_box_verts strip_box_faces]. lia.
    + rewrite (add_strip_skipped p1 p2 w d bm Hfar).
      destruct (IH bm Hrange) as [bm' H]. exists bm'. exact H.
Qed.

End Surfaces.

(** ** Models made of joined parts *)

Section Parts.
Local Open Scope nat_scope.

Ltac live :=
  cbn [objects]; apply is_live_in; rewrite !map_app; cbn [map obj_id];
  repeat (apply in_or_app; right); cbn [In app]; auto 10.

Ltac step_select :=
  unfold bind at 1; rewrite select_set_run by live;
  cbn [objects active selected app].

Ltac block_ids := cbn [map obj_id List.length seq]; repeat f_equal; lia.

Ltac split_last l :=
  lazymatch l with
  | [?o] => constr:((@nil Object, o))
  | ?x :: ?r =>
      let p := split_last r in
      lazymatch p with (?n, ?o) => constr:((x :: n, o)) end
  end.

(** One step [bpy.ops...add(...); x = bpy.context.active_object]. *)
Ltac step_add objs :=
  unfold bind at 1;
  lazymatch goal with
  | |- context [add_object ?n ?d ?l (mkScene (objs ++ ?news) ?a ?sel)] =>
      rewrite (add_object_snoc objs news n d l a sel) by block_ids
  | |- context [add_object ?n ?d ?l (mkScene objs ?a ?sel)] =>
      unfold add_object at 1; cbn [objects]
  end;
  cbn [app List.length];
  unfold bind at 1; unfold active_object at 1; cbn [active].

(** One step [bpy.ops.object.transform_apply(...)] on the object added
    last. *)
Ltac step_apply objs :=
  unfold bind at 1;
  lazymatch goal with
  | |- context [transform_apply (mkScene (objs ++ ?l) ?a [?h])] =>
      let p := split_last l in
      lazymatch p with
      | (?news, ?o) =>
          let T := fresh "T" in
          pose proof (transform_apply_snoc objs news o a) as T;
          cbn [app List.length obj_id] in T; unfold handle in T |- *;
          rewrite T by block_ids; clear T
      end
  end;
  unfold applied; cbn [obj_id obj_name obj_parent obj_data].

Ltac step_join objs :=
  unfold bind at 1;
  lazymatch goal with
  | |- context [object_join (mkScene (objs ++ ?n0 :: ?rest) _ _)] =>
      let J := fresh "J" in
      pose proof (object_join_block objs rest n0) as J;
      cbn [map obj_id List.length seq] in J; unfold handle in J |- *;
      replace (fresh objs + 1) with (S (fresh objs)) in * by lia;
      replace (fresh objs + 2) with (S (S (fresh objs))) in * by lia;
      replace (fresh objs + 3) with (S (S (S (fresh objs)))) in * by lia;
      replace (fresh objs + 4) with (S (S (S (S (fresh objs))))) in * by lia;
      rewrite (J eq_refl); clear J
  end;
  cbn [obj_id obj_name obj_parent obj_location obj_axis obj_data app List.concat map].

Ltac step_name objs :=
  unfold bind at 1;
  lazymatch goal with
  | |- context [set_name ?h ?n (mkScene (objs ++ [?o]) ?a' ?sel')] =>
      let U := fresh "U" in
      pose proof (set_name_last objs o a' sel' n eq_refl) as U;
      cbn [obj_id obj_name obj_parent obj_location obj_axis obj_data] in U;
      unfold handle in U |- *;
      rewrite U; clear U
  end.

Lemma create_box_run (name : string) (dimensions location : Vec3) (s : Scene) :
  create_box name dimensions location s
  = Ok (fresh (objects s),
        mkScene (objects s
                 ++ [mkObject (fresh (objects s)) (unique_name (objects s) name) None
                       (mkVec 0 0 0) None [Prim Cube]])
                (Some (fresh (objects s))) [fresh (objects s)]).
Proof.
  destruct s as [objs a sel]. cbn [objects].
  unfold create_box, primitive_cube_add.
  step_add objs. step_name objs. step_apply objs.
  reflexivity.
Qed.

Lemma create_gun_run (name : string) (location : Vec3) (s : Scene) :
  LightGun.create_gun name location s
  = Ok (fresh (objects s),
        mkScene (objects s
                 ++ [mkObject (fresh (objects s)) (unique_name (objects s) name) None
                       (mkVec 0 0 0) None [Prim Cube; Prim Cylinder; Prim Cube]])
                (Some (fresh (objects s))) [fresh (objects s)]).
Proof.
  destruct s as [objs a sel]. cbn [objects].
  unfold LightGun.create_gun, primitive_cube_add, primitive_cylinder_add.
  step_add objs. step_apply objs.
  step_add objs. step_apply objs.
  step_add objs. step_apply objs.
  unfold bind at 1. unfold select_all_deselect, modify. cbn [objects active].
  step_select. step_select. step_select.
  unfold bind at 1. rewrite set_active_run by live. cbn [objects selected].
  step_join objs. step_name objs.
  reflexivity.
Qed.

Lemma create_gear_shifter_run (name : string) (location : Vec3) (s : Scene) :
  Driving.create_gear_shifter name location s
  = Ok (fresh (objects s),
        mkScene (objects s
                 ++ [mkObject (fresh (objects s)) (unique_name (objects s) name) None
                       location None [Prim Cylinder; Prim Cylinder; Prim UVSphere]])
                (Some (fresh (objects s))) [fresh (objects s)]).
Proof.
  destruct s as [objs a sel]. cbn [objects].
  unfold Driving.create_gear_shifter, primitive_cylinder_add, primitive_uv_sphere_add.
  step_add objs. step_add objs. step_add objs.
  unfold bind at 1. unfold select_all_deselect, modify. cbn [objects active].
  step_select. step_select. step_select.
  unfold bind at 1. rewrite set_active_run by live. cbn [objects selected].
  step_join objs. step_name objs.
  reflexivity.
Qed.

Lemma create_steering_wheel_run (name : string) (location : Vec3) (s : Scene) :
  Driving.create_steering_wheel name location s
  = Ok (fresh (objects s),
        mkScene (objects s
                 ++ [mkObject (fresh (objects s)) (unique_name (objects s) name) None
                       (mkVec 0 0 0) None
                       [Prim Torus; Prim Cylinder; Prim Cube; Prim Cube; Prim Cube]])
                (Some (fresh (objects s))) [fresh (objects s)]).
Proof.
  destruct s as [objs a sel]. cbn [objects].
  unfold Driving.create_steering_wheel, primitive_torus_add, primitive_cylinder_add,
    primitive_cube_add.
  step_add objs. step_add objs.
  unfold bind at 1. cbn [seq forM].
  unfold bind at 1. step_add objs. step_apply objs. unfold ret at 1.
  unfold bind at 1. unfold bind at 1. step_add objs. step_apply objs. unfold ret at 1.
  unfold bind at 1. unfold bind at 1. step_add objs. step_apply objs. unfold ret at 1.
  unfold bind at 1. unfold ret at 1. unfold ret at 1. unfold ret at 1. unfold ret at 1.
  unfold bind at 1. unfold select_all_deselect, modify. cbn [objects active].
  step_select. step_select.
  unfold bind at 1.
  rewrite forM_select_set
    by (intros h Hh; apply is_live_in; rewrite !map_app; cbn [map obj_id];
        apply in_or_app; right; cbn [In] in *; intuition).
  cbn [app].
  unfold bind at 1. rewrite set_active_run by live. cbn [objects selected].
  step_join objs. step_name objs. step_apply objs.
  reflexivity.
Qed.

End Parts.

(** * The claims of the specification *)

(** C1.  For every variant (Upright, Cocktail, Driving, LightGun) and
    whatever the scene the script starts in, the build completes, and in the
    scene it leaves exactly one object is named cabinet-root; that object
    has no parent, and the parent chain of every other object ends at it. *)
Theorem variant_scene_rooted (v : Variant) (s0 : Scene) :
  exists root s, build_variant v s0 = Ok (root, s) /\ rooted_at s root.
Proof.
  exists (built_root v), (built_scene v). split.
  - apply build_variant_run.
  - apply rooted_atb_sound. destruct v; vm_compute; reflexivity.
Qed.

(** C2.  The scene of every variant has an object for each name of the
    minimum vocabulary: left, right, back, top, bottom, bezel, screen,
    screen-mock-horizontal, screen-mock-vertical, marquee, coin-door,
    speaker and t-molding. *)
Theorem variant_required_names (v : Variant) (s0 : Scene) :
  exists root s,
    build_variant v s0 = Ok (root, s) /\ incl required_names (names s).
Proof.
  exists (built_root v), (built_scene v). split.
  - apply build_variant_run.
  - apply has_names_incl. destruct v; vm_compute; reflexivity.
Qed.

(** C3.  For every profile of n >= 3 points, and whatever the two offsets
    of the rings (so for every thickness t > 0), the profile extrusion
    succeeds and its mesh has exactly 2n vertices and n + 2 faces: the front
    n-gon, the back n-gon and n side quads. *)
Theorem profile_extrusion_counts (profile : list (Q * Q)) (y_front y_back : Q) :
  (3 <= List.length profile)%nat ->
  exists m front back quads,
    BMesh.build (extrude_profile profile y_front y_back) = Ok m
    /\ List.length (verts m) = (2 * List.length profile)%nat
    /\ List.length (faces m) = (List.length profile + 2)%nat
    /\ faces m = front :: back :: quads
    /\ List.length front = List.length profile
    /\ List.length back = List.length profile
    /\ List.length quads = List.length profile
    /\ Forall (fun q => List.length q = 4%nat) quads.
Proof.
  intros Hn.
  exists (extruded profile y_front y_back), (seq 0 (List.length profile)),
         (rev (seq (List.length profile) (List.length profile))),
         (map (side_quad (List.length profile)) (seq 0 (List.length profile))).
  split; [now apply extrude_profile_build |].
  unfold extruded. cbn [verts faces List.length].
  rewrite length_app, !length_map, length_rev, !length_seq.
  repeat split; try lia.
  apply Forall_forall. intros q Hq. apply in_map_iff in Hq.
  now destruct Hq as [i [<- _]].
Qed.

Lemma profile_extrusion_counts_witness :
  exists m front back quads,
    BMesh.build (Upright.side_panel_mesh false) = Ok m
    /\ List.length (verts m) = 30%nat
    /\ List.length (faces m) = 17%nat
    /\ faces m = front :: back :: quads
    /\ List.length front = 15%nat
    /\ List.length back = 15%nat
    /\ List.length quads = 15%nat
    /\ Forall (fun q => List.length q = 4%nat) quads.
Proof.
  apply (profile_extrusion_counts Upright.profile_2d
           (- Upright.thickness / 2) (Upright.thickness / 2)).
  vm_compute. lia.
Defined.

(** C4, as the scripts have it.  For every profile of n >= 3 points and two
    distinct ring offsets (thickness t > 0), side quad i is wound front[i],
    front[i+1], back[i+1], back[i], and its right-hand normal is
    (y_back - y_front) * (-dz, 0, dx) for the profile edge (dx, dz): it is
    perpendicular to the edge and to the thickness axis, and the side flag
    flips it.  When the profile is convex and listed counter-clockwise, the
    product of the normal with the direction from the centroid of the
    profile to the quad has the sign of y_front - y_back: the normal points
    away from the centroid when the front ring is on the +y side
    (is_right = True) and towards it when the front ring is on the -y side
    (is_right = False). *)
Theorem side_quad_normal_direction
    (profile : list (Q * Q)) (y_front y_back y : Q) (i : nat) :
  (3 <= List.length profile)%nat ->
  (i < List.length profile)%nat ->
  ~ y_front == y_back ->
  exists m q,
    BMesh.build (extrude_profile profile y_front y_back) = Ok m
    /\ nth_error (faces m) (2 + i)%nat = Some q
    /\ q = [ i; ((i + 1) mod List.length profile);
             (List.length profile + (i + 1) mod List.length profile);
             (List.length profile + i) ]%nat
    /\ veq (face_normal m q)
           (scale (mkVec
                     (- (snd (point profile ((i + 1) mod List.length profile)%nat)
                         - snd (point profile i)))
                     0
                     (fst (point profile ((i + 1) mod List.length profile)%nat)
                      - fst (point profile i)))
                  (y_back - y_front))
    /\ (convex_ccw profile = true ->
        0 < (y_front - y_back)
            * dot (face_normal m q)
                  (sub (face_centre m q) (profile_centroid profile y))).
Proof.
  intros Hn Hi Hthick.
  exists (extruded profile y_front y_back), (side_quad (List.length profile) i).
  split; [now apply extrude_profile_build |].
  split; [now apply side_quad_at |].
  split; [reflexivity |].
  split; [apply side_quad_normal; lia |].
  intros Hconvex.
  pose proof (side_quad_flux profile y_front y_back i y) as Hflux.
  cbv zeta in Hflux. specialize (Hflux ltac:(lia) Hi).
  pose proof (convex_ccw_edge profile i Hconvex Hi) as Hsum.
  assert (Hlen : 0 < Qlen profile) by (apply Qlen_pos; lia).
  set (D := dot _ _) in *. set (S := Qsum _) in *. set (N := Qlen profile) in *.
  assert (Hsq : 0 < (y_front - y_back) * (y_front - y_back)) by nra.
  nra.
Qed.

Lemma side_quad_normal_direction_witness :
  exists m q,
    BMesh.build (extrude_profile [(0, 0); (1, 0); (1, 1); (0, 1)] 0.01 (-0.01)) = Ok m
    /\ nth_error (faces m) 2%nat = Some q
    /\ q = [0; 1; 5; 4]%nat
    /\ veq (face_normal m q) (scale (mkVec (- (0 - 0)) 0 (1 - 0)) (-0.01 - 0.01))
    /\ points_away (face_normal m q) (face_centre m q)
                   (profile_centroid [(0, 0); (1, 0); (1, 1); (0, 1)] 0).
Proof.
  destruct (side_quad_normal_direction [(0, 0); (1, 0); (1, 1); (0, 1)]
              0.01 (-0.01) 0 0%nat)
    as [m [q [Hbuild [Hface [Hq [Hnormal Haway]]]]]].
  - vm_compute. lia.
  - vm_compute. lia.
  - intros H. vm_compute in H. discriminate.
  - exists m, q. repeat (split; [assumption |]).
    specialize (Haway eq_refl). unfold points_away.
    assert (Ht : 0 < 0.01 - -0.01) by reflexivity.
    set (D := dot _ _) in *. nra.
Defined.

(** The comprehension under [if is_right] copies the profile. *)
Lemma upright_side_profile (is_right : bool) :
  Upright.side_profile is_right = Upright.profile_2d.
Proof. destruct is_right; reflexivity. Qed.

Lemma upright_side_panel_build (is_right : bool) :
  BMesh.build (Upright.side_panel_mesh is_right)
  = Ok (extruded Upright.profile_2d
          (if is_right then Upright.thickness / 2 else - Upright.thickness / 2)
          (if is_right then - Upright.thickness / 2 else Upright.thickness / 2)).
Proof.
  unfold Upright.side_panel_mesh. rewrite upright_side_profile.
  apply extrude_profile_build. vm_compute. lia.
Qed.

Lemma driving_side_panel_build (is_right : bool) :
  BMesh.build (Driving.side_panel_mesh is_right)
  = Ok (extruded Driving.profile_2d
          (if is_right then 0.50 else -0.50)
          (if is_right then 0.50 - Driving.thickness else -0.50 + Driving.thickness)).
Proof.
  unfold Driving.side_panel_mesh. cbv zeta.
  destruct is_right; apply extrude_profile_build; vm_compute; lia.
Qed.

Lemma lightgun_side_panel_build (is_right : bool) :
  BMesh.build (LightGun.side_panel_mesh is_right)
  = Ok (extruded LightGun.profile_2d
          (if is_right then LightGun.thickness / 2 else - LightGun.thickness / 2)
          (if is_right then - LightGun.thickness / 2 else LightGun.thickness / 2)).
Proof.
  unfold LightGun.side_panel_mesh. cbv zeta.
  apply extrude_profile_build. vm_compute. lia.
Qed.

(** The left panel of the Upright script (is_right = False): the normal of
    its first side quad, wound front[0], front[1], back[1], back[0], does
    not point away from the centroid of the profile, and neither does the
    normal of the second side quad of the right panel. *)
Lemma upright_side_quad_normals_not_away :
  exists ml mr q0 q1,
    BMesh.build (Upright.side_panel_mesh false) = Ok ml
    /\ BMesh.build (Upright.side_panel_mesh true) = Ok mr
    /\ nth_error (faces ml) 2%nat = Some q0 /\ q0 = [0; 1; 16; 15]%nat
    /\ nth_error (faces mr) 3%nat = Some q1 /\ q1 = [1; 2; 17; 16]%nat
    /\ ~ points_away (face_normal ml q0) (face_centre ml q0)
                     (profile_centroid Upright.profile_2d 0)
    /\ ~ points_away (face_normal mr q1) (face_centre mr q1)
                     (profile_centroid Upright.profile_2d 0).
Proof.
  exists (extruded Upright.profile_2d (- Upright.thickness / 2) (Upright.thickness / 2)),
         (extruded Upright.profile_2d (Upright.thickness / 2) (- Upright.thickness / 2)),
         [0; 1; 16; 15]%nat, [1; 2; 17; 16]%nat.
  split; [apply (upright_side_panel_build false) |].
  split; [apply (upright_side_panel_build true) |].
  repeat (split; [reflexivity |]).
  split; intros H; vm_compute in H; discriminate.
Qed.

(** On the concave profiles of the scripts no panel has all its side-quad
    normals pointing away from the centroid: each of the six panels has a
    side quad whose normal does not. *)
Lemma script_panels_have_inward_normals :
  forallb (fun mp : BM unit * list (Q * Q) =>
    match BMesh.build (fst mp) with
    | Ok m => existsb (fun q => negb (points_awayb (face_normal m q) (face_centre m q)
                                         (profile_centroid (snd mp) 0)))
                      (skipn 2 (faces m))
    | Raise _ => false
    end)
    [ (Upright.side_panel_mesh false, Upright.profile_2d);
      (Upright.side_panel_mesh true, Upright.profile_2d);
      (Driving.side_panel_mesh false, Driving.profile_2d);
      (Driving.side_panel_mesh true, Driving.profile_2d);
      (LightGun.side_panel_mesh false, LightGun.profile_2d);
      (LightGun.side_panel_mesh true, LightGun.profile_2d) ] = true.
Proof. vm_compute. reflexivity. Qed.

(** What every cutout-panel builder does, whatever the dimensions. *)
Lemma cutout_builders_total (name : string) (ow oh cw ch t : Q) (s : Scene) :
  returns_cutout_panel (Cocktail.create_bezel_with_cutout name ow oh cw ch t s)
  /\ returns_cutout_panel (Driving.create_bezel_with_cutout name ow oh cw ch t s)
  /\ returns_cutout_panel (LightGun.create_bezel_with_cutout name ow oh cw ch t s).
Proof.
  repeat split.
  - destruct (new_mesh_object _ _ name s
                (bezel_mesh_xy_build (ow / 2) (oh / 2) (cw / 2) (ch / 2) (t / 2)))
      as [h [s' [Hrun Hmesh]]].
    exists h, s'. eexists. split; [exact Hrun |]. split; [exact Hmesh |].
    repeat split.
  - destruct (new_mesh_object _ _ name s
                (bezel_mesh_xz_build (ow / 2) (oh / 2) (cw / 2) (ch / 2) (t / 2)))
      as [h [s' [Hrun Hmesh]]].
    exists h, s'. eexists. split; [exact Hrun |]. split; [exact Hmesh |].
    repeat split.
  - destruct (new_mesh_object _ _ name s
                (bezel_mesh_xz_build (ow / 2) (oh / 2) (cw / 2) (ch / 2) (t / 2)))
      as [h [s' [Hrun Hmesh]]].
    exists h, s'. eexists. split; [exact Hrun |]. split; [exact Hmesh |].
    repeat split.
Qed.

(** The bezel of the Upright script, whose dimensions are fixed (cutout
    0.35 x 0.28 inside 0.45 x 0.40). *)
Lemma upright_bezel_panel (s : Scene) :
  returns_cutout_panel (Upright.create_bezel_with_cutout s).
Proof.
  unfold Upright.create_bezel_with_cutout, returns_cutout_panel.
  unfold bind at 1. unfold bmesh, Upright.bezel_mesh. cbv zeta.
  rewrite bezel_mesh_xz_build.
  unfold bind at 1. unfold objects_new_link.
  unfold bind at 1. unfold set_location.
  match goal with
  | |- context [update ?h ?f (mkScene (?objs ++ [?o]) ?a ?sel)] =>
      pose proof (update_last objs o a sel f eq_refl) as U;
      cbn [obj_id] in U; rewrite U
  end.
  unfold ret. do 3 eexists. split; [reflexivity |].
  split; [unfold mesh_of; rewrite find_by_id_last; reflexivity |].
  repeat split.
Qed.

(** C5.  For every cutout-panel builder call whose cutout is strictly
    smaller than the outer rectangle on both axes, the builder returns a
    mesh of exactly 16 vertices and exactly 16 faces: four front ring
    quads, four back ring quads, four outer walls and four walls of the
    cutout.  This holds for the builders of the Cocktail, Driving and
    LightGun scripts, and for the bezel of the Upright script. *)
Theorem cutout_panel_counts (name : string) (ow oh cw ch t : Q) (s : Scene) :
  cw < ow -> ch < oh ->
  returns_cutout_panel (Cocktail.create_bezel_with_cutout name ow oh cw ch t s)
  /\ returns_cutout_panel (Driving.create_bezel_with_cutout name ow oh cw ch t s)
  /\ returns_cutout_panel (LightGun.create_bezel_with_cutout name ow oh cw ch t s)
  /\ returns_cutout_panel (Upright.create_bezel_with_cutout s).
Proof.
  intros _ _.
  destruct (cutout_builders_total name ow oh cw ch t s) as [H1 [H2 H3]].
  repeat split; try assumption. apply upright_bezel_panel.
Qed.

Lemma cutout_panel_counts_witness :
  returns_cutout_panel
    (Cocktail.create_bezel_with_cutout "bezel" 0.70 0.55 0.45 0.35 0.01 empty_scene)
  /\ returns_cutout_panel
       (Driving.create_bezel_with_cutout "bezel" 0.70 0.55 0.45 0.35 0.01 empty_scene)
  /\ returns_cutout_panel
       (LightGun.create_bezel_with_cutout "bezel" 0.70 0.55 0.45 0.35 0.01 empty_scene)
  /\ returns_cutout_panel (Upright.create_bezel_with_cutout empty_scene).
Proof.
  apply (cutout_panel_counts "bezel" 0.70 0.55 0.45 0.35 0.01 empty_scene).
  - reflexivity.
  - reflexivity.
Defined.

(** A cutout as large as twice the panel: the builder of the Cocktail
    script raises nothing and returns its object. *)
Lemma oversized_cutout_is_built :
  ~ (2 < 1)
  /\ is_ok (Cocktail.create_bezel_with_cutout "bezel" 1 1 2 2 0.01 empty_scene) = true
  /\ is_ok (Driving.create_bezel_with_cutout "bezel" 1 1 2 2 0.01 empty_scene) = true
  /\ is_ok (LightGun.create_bezel_with_cutout "bezel" 1 1 2 2 0.01 empty_scene) = true.
Proof.
  split; [intros H; vm_compute in H; discriminate |].
  repeat split; vm_compute; reflexivity.
Qed.

(** C6, as the scripts have it.  The cutout-panel builders do not compare
    the cutout with the outer rectangle: also when the cutout is not
    strictly smaller on both axes they raise no exception and return the
    mesh of 16 vertices and 16 faces. *)
Theorem cutout_panel_unchecked (name : string) (ow oh cw ch t : Q) (s : Scene) :
  ~ (cw < ow /\ ch < oh) ->
  returns_cutout_panel (Cocktail.create_bezel_with_cutout name ow oh cw ch t s)
  /\ returns_cutout_panel (Driving.create_bezel_with_cutout name ow oh cw ch t s)
  /\ returns_cutout_panel (LightGun.create_bezel_with_cutout name ow oh cw ch t s).
Proof.
  intros _. apply cutout_builders_total.
Qed.

Lemma cutout_panel_unchecked_witness :
  returns_cutout_panel
    (Cocktail.create_bezel_with_cutout "bezel" 1 1 2 2 0.01 empty_scene)
  /\ returns_cutout_panel
       (Driving.create_bezel_with_cutout "bezel" 1 1 2 2 0.01 empty_scene)
  /\ returns_cutout_panel
       (LightGun.create_bezel_with_cutout "bezel" 1 1 2 2 0.01 empty_scene).
Proof.
  apply (cutout_panel_unchecked "bezel" 1 1 2 2 0.01 empty_scene).
  intros [H _]. vm_compute in H. discriminate.
Defined.

(** The five strips of the Upright script are all longer than the
    threshold: each adds its box of 8 vertices and 6 faces. *)
Lemma upright_t_molding_counts :
  exists m, BMesh.build Upright.t_molding_mesh = Ok m
            /\ List.length (verts m) = 40%nat /\ List.length (faces m) = 30%nat.
Proof. eexists. split; [vm_compute; reflexivity | split; reflexivity]. Qed.

(** The paths of the three sweep scripts: every consecutive pair passes
    the length test of the builder. *)
Lemma script_paths_all_far :
  all_far Cocktail.path = true /\ all_far Driving.path = true
  /\ all_far LightGun.path = true /\ all_far LightGun.path2 = true.
Proof. repeat split; vm_compute; reflexivity. Qed.







(** The scene of the LightGun script has an object named pedal. *)
Lemma lightgun_has_pedal :
  exists root s,
    build_variant LightGun empty_scene = Ok (root, s)
    /\ In "pedal" (names s)
    /\ mentions "pedal" "pedal" = true.
Proof.
  exists (built_root LightGun), (built_scene LightGun).
  split; [apply build_variant_run |].
  split; [| reflexivity].
  apply (has_names_incl (built_scene LightGun) ["pedal"]).
  - vm_compute. reflexivity.
  - now left.
Qed.

(** C9, as the script has it.  Building the LightGun variant yields objects
    named gun and gun2; no name mentions steering; and the only name that
    mentions pedal is pedal itself, the foot pedal of the cabinet: there is
    no gas-pedal and no brake-pedal. *)
Theorem lightgun_guns_and_pedal (s0 : Scene) :
  exists root s,
    build_variant LightGun s0 = Ok (root, s)
    /\ In "gun" (names s) /\ In "gun2" (names s)
    /\ filter (mentions "steering") (names s) = []
    /\ filter (mentions "pedal") (names s) = ["pedal"].
Proof.
  exists (built_root LightGun), (built_scene LightGun).
  split; [apply build_variant_run |].
  assert (H : incl ["gun"; "gun2"] (names (built_scene LightGun))).
  { apply has_names_incl. vm_compute. reflexivity. }
  split; [apply H; simpl; auto |].
  split; [apply H; simpl; auto |].
  split; vm_compute; reflexivity.
Qed.

(** The two side panels in the scene of the Upright script: the objects
    named left and right, children of the root, at y = -0.25 and y = 0.25,
    each with its extruded mesh. *)
Lemma upright_panel_objects :
  find_by_name (built_scene Upright) "left"
  = [ mkObject 1%nat "left" (Some (built_root Upright)) (mkVec 0 (-0.25) 0) None
        [Built (extruded Upright.profile_2d
                  (- Upright.thickness / 2) (Upright.thickness / 2))] ]
  /\ find_by_name (built_scene Upright) "right"
     = [ mkObject 2%nat "right" (Some (built_root Upright)) (mkVec 0 0.25 0) None
           [Built (extruded Upright.profile_2d
                     (Upright.thickness / 2) (- Upright.thickness / 2))] ].
Proof. split; vm_compute; reflexivity. Qed.

(** C10.  In the Upright script the flag is_right does not mirror the
    profile: both panels are built from the same 15 profile points; the
    flag swaps which ring gets the offset +thickness/2 and which
    -thickness/2, and flips the sign of the y location of the object (0.25
    against -0.25); the faces are the same, and the vertex positions of the
    two meshes are the same multiset. *)
Theorem upright_side_panels_not_mirrored :
  Upright.side_profile false = Upright.profile_2d
  /\ Upright.side_profile true = Upright.profile_2d
  /\ List.length Upright.profile_2d = 15%nat
  /\ Upright.side_panel_location false = mkVec 0 (-0.25) 0
  /\ Upright.side_panel_location true = mkVec 0 0.25 0
  /\ exists ml mr,
       BMesh.build (Upright.side_panel_mesh false) = Ok ml
       /\ BMesh.build (Upright.side_panel_mesh true) = Ok mr
       /\ verts ml
          = map (fun p => mkVec (fst p) (- Upright.thickness / 2) (snd p))
                Upright.profile_2d
            ++ map (fun p => mkVec (fst p) (Upright.thickness / 2) (snd p))
                   Upright.profile_2d
       /\ verts mr
          = map (fun p => mkVec (fst p) (Upright.thickness / 2) (snd p))
                Upright.profile_2d
            ++ map (fun p => mkVec (fst p) (- Upright.thickness / 2) (snd p))
                   Upright.profile_2d
       /\ faces ml = faces mr
       /\ Permutation (verts ml) (verts mr).
Proof.
  split; [apply upright_side_profile |].
  split; [apply upright_side_profile |].
  split; [reflexivity |].
  split; [reflexivity |].
  split; [reflexivity |].
  exists (extruded Upright.profile_2d (- Upright.thickness / 2) (Upright.thickness / 2)),
         (extruded Upright.profile_2d (Upright.thickness / 2) (- Upright.thickness / 2)).
  split; [apply (upright_side_panel_build false) |].
  split; [apply (upright_side_panel_build true) |].
  split; [reflexivity |].
  split; [reflexivity |].
  split; [reflexivity |].
  apply Permutation_app_comm.
Qed.

(** * Further properties *)

(** ** The scenes of the scripts *)

(** X3.  No object of a finished scene has a name with a dot: Blender had
    to add its suffix (.001, .002, ...) to no name, so every object bears
    exactly the name its script gave it, and no two parts of a script were
    given the same name. *)
Theorem variant_names_unsuffixed (v : Variant) (s0 : Scene) :
  exists root s,
    build_variant v s0 = Ok (root, s)
    /\ forallb (fun n => negb (mentions "." n)) (names s) = true.
Proof.
  exists (built_root v), (built_scene v). split.
  - apply build_variant_run.
  - destruct v; vm_compute; reflexivity.
Qed.

(** X4.  No object of a finished scene keeps the name an add operator gave
    it (Empty, Cube, Plane, Cylinder, Torus, Sphere, with or without
    suffix): every part was named by its script, and the objects that were
    only material for a join are gone. *)
Theorem variant_no_default_names (v : Variant) (s0 : Scene) :
  exists root s,
    build_variant v s0 = Ok (root, s)
    /\ forallb (fun n => negb (existsb (fun d => mentions d n) default_names))
               (names s) = true.
Proof.
  exists (built_root v), (built_scene v). split.
  - apply build_variant_run.
  - destruct v; vm_compute; reflexivity.
Qed.

(** ** The command line *)

Section CommandLine.
Local Open Scope nat_scope.

Lemma py_in_false (x : string) (l : list string) :
  ~ In x l -> py_in x l = false.
Proof.
  intros H. unfold py_in. apply not_true_is_false. intros E.
  apply existsb_exists in E. destruct E as [y [Hy E]].
  apply String.eqb_eq in E. subst. contradiction.
Qed.

Lemma py_in_middle (x : string) (pre l : list string) :
  py_in x (pre ++ x :: l) = true.
Proof.
  unfold py_in. apply existsb_exists. exists x. split.
  - apply in_or_app. right. now left.
  - apply String.eqb_refl.
Qed.

Lemma py_index_first (x : string) (pre l : list string) :
  ~ In x pre -> py_index x (pre ++ x :: l) = Ok (List.length pre).
Proof.
  induction pre as [| a pre IH]; intros H; cbn [app py_index List.length].
  - now rewrite String.eqb_refl.
  - destruct (String.eqb_spec a x) as [-> | _].
    + exfalso. apply H. now left.
    + rewrite IH; [reflexivity |]. intros Hin. apply H. now right.
Qed.

Lemma skipn_past (x : string) (pre l : list string) :
  skipn (List.length pre + 1) (pre ++ x :: l) = l.
Proof.
  induction pre as [| a pre IH]; [reflexivity | exact IH].
Qed.

End CommandLine.

(** X5.  The output path of [main]: the default when the command line has
    no "--" or nothing after it, and otherwise the argument that follows
    the first "--", whatever comes before and after; the choice never
    fails. *)
Theorem output_path_cases (default p : string) (pre rest : list string) :
  ~ In "--" pre ->
  output_path default pre = Ok default
  /\ output_path default (pre ++ ["--"]) = Ok default
  /\ output_path default (pre ++ "--" :: p :: rest) = Ok p.
Proof.
  intros H. unfold output_path. repeat split.
  - now rewrite py_in_false.
  - now rewrite py_in_middle, py_index_first, skipn_past.
  - now rewrite py_in_middle, py_index_first, skipn_past.
Qed.

Lemma output_path_cases_witness :
  output_path (default_path Upright) ["blender"; "--background"; "--python"; "s.py"]
  = Ok "/tmp/arcade_cabinet_template.glb"
  /\ output_path (default_path Upright)
       (["blender"; "--background"; "--python"; "s.py"] ++ ["--"])
     = Ok "/tmp/arcade_cabinet_template.glb"
  /\ output_path (default_path Upright)
       (["blender"; "--background"; "--python"; "s.py"] ++ "--" :: "out.glb" :: ["--"; "x"])
     = Ok "out.glb".
Proof.
  apply (output_path_cases (default_path Upright) "out.glb"
           ["blender"; "--background"; "--python"; "s.py"] ["--"; "x"]).
  cbn [In]. intros H. repeat (destruct H as [H | H]; [discriminate |]). exact H.
Defined.

(** ** Meshes *)

(** X7.  The extruded slab, whatever the profile of n >= 3 points and the
    offsets, is not consistently oriented: the front cap and side quad i
    both run along the edge from front[i] to front[i+1] in the same
    direction, so the mesh as a whole fails the test of a closed oriented
    surface. *)
Theorem extrusion_not_consistently_oriented
    (profile : list (Q * Q)) (y_front y_back : Q) (i : nat) :
  (3 <= List.length profile)%nat ->
  (i < List.length profile)%nat ->
  exists m front quad,
    BMesh.build (extrude_profile profile y_front y_back) = Ok m
    /\ nth_error (faces m) 0 = Some front
    /\ nth_error (faces m) (2 + i) = Some quad
    /\ In (i, ((i + 1) mod List.length profile)%nat) (directed_edges front)
    /\ In (i, ((i + 1) mod List.length profile)%nat) (directed_edges quad)
    /\ closed_oriented (faces m) = false.
Proof.
  intros Hn Hi.
  exists (extruded profile y_front y_back), (seq 0 (List.length profile)),
         (side_quad (List.length profile) i).
  split; [now apply extrude_profile_build |].
  split; [reflexivity |].
  split; [now apply side_quad_at |].
  split; [apply front_cap_edge; lia |].
  split; [apply side_quad_edge |].
  now apply extruded_not_oriented.
Qed.

Lemma extrusion_not_consistently_oriented_witness :
  exists m front quad,
    BMesh.build (extrude_profile Driving.profile_2d 0.50 0.48) = Ok m
    /\ nth_error (faces m) 0 = Some front
    /\ nth_error (faces m) 14 = Some quad
    /\ In (12%nat, 0%nat) (directed_edges front)
    /\ In (12%nat, 0%nat) (directed_edges quad)
    /\ closed_oriented (faces m) = false.
Proof.
  apply (extrusion_not_consistently_oriented Driving.profile_2d 0.50 0.48 12).
  - vm_compute. lia.
  - vm_compute. lia.
Defined.

(** X8.  The cutout panel, whatever its five dimensions, is a closed
    surface with one orientation: every directed edge of its sixteen faces
    is used once, and its reverse once.  This holds for the panel in the
    x-z plane (Upright, Driving, LightGun) and for the one in the x-y plane
    (Cocktail). *)
Theorem cutout_panel_closed_oriented (hw hh chw chh t : Q) :
  (exists m, BMesh.build (bezel_mesh_xz hw hh chw chh t) = Ok m
             /\ closed_oriented (faces m) = true)
  /\ (exists m, BMesh.build (bezel_mesh_xy hw hh chw chh t) = Ok m
                /\ closed_oriented (faces m) = true).
Proof.
  split.
  - eexists. split; [apply bezel_mesh_xz_build |]. vm_compute. reflexivity.
  - eexists. split; [apply bezel_mesh_xy_build |]. vm_compute. reflexivity.
Qed.

(** X9.  The four front ring quads of the cutout panel tile the frame: the
    sum of their signed areas is the signed area of the outer ring minus
    that of the cutout ring, that is outer_w * outer_h - cutout_w *
    cutout_h (all areas doubled, as the shoelace sum gives them), and the
    four back ring quads have the opposite sum; this for all dimensions,
    the degenerate ones included. *)
Theorem cutout_panel_ring_area (ow oh cw ch t : Q) :
  exists m,
    BMesh.build (bezel_mesh_xz (ow / 2) (oh / 2) (cw / 2) (ch / 2) (t / 2)) = Ok m
    /\ Qsum (map (area2 xz m) (firstn 4 (faces m)))
       == area2 xz m [0; 1; 2; 3]%nat - area2 xz m [4; 5; 6; 7]%nat
    /\ Qsum (map (area2 xz m) (firstn 4 (faces m))) == 2 * (ow * oh - cw * ch)
    /\ Qsum (map (area2 xz m) (firstn 4 (skipn 4 (faces m))))
       == - (2 * (ow * oh - cw * ch)).
Proof.
  eexists. split; [apply bezel_mesh_xz_build |].
  unfold area2, directed_edges, bezel_face_list, bezel_verts_xz, vert, xz, Qsum.
  cbn [faces verts firstn skipn map tl app combine fold_right fst snd nth vx vz].
  repeat split; field.
Qed.

(** ** Strips of the Upright trim *)

(** X10.  A strip that passes the length test of [add_strip] (its
    computed length is not below 0.001), added to a mesh whose faces are on
    its own vertices, appends the eight corners of its box and the six
    faces of the box, numbered from the size of the mesh; it touches no
    earlier vertex or face, and the result again has its faces on its own
    vertices. *)
Theorem add_strip_appends_box (p1 p2 : Vec3) (w d : Q) (bm : Mesh) :
  far p1 p2 = true ->
  faces_in_range bm ->
  exists bm',
    Upright.add_strip p1 p2 w d bm = Ok (tt, bm')
    /\ verts bm'
       = verts bm ++ strip_box_verts p1 p2
                       (fst (Upright.strip_frame p1 p2 w d))
                       (snd (Upright.strip_frame p1 p2 w d))
    /\ faces bm' = faces bm ++ strip_box_faces (List.length (verts bm))
    /\ faces_in_range bm'.
Proof.
  intros Hfar Hrange. eexists.
  split; [apply (add_strip_built p1 p2 w d bm Hfar Hrange) |].
  split; [reflexivity |]. split; [reflexivity |].
  apply strip_box_in_range; [assumption | reflexivity].
Qed.

Lemma add_strip_appends_box_witness :
  exists bm',
    Upright.add_strip (mkVec (-0.04) (-0.26) 0.02) (mkVec (-0.04) (-0.26) 1.90)
      0.012 0.008 BMesh.new = Ok (tt, bm')
    /\ verts bm'
       = verts BMesh.new
         ++ strip_box_verts (mkVec (-0.04) (-0.26) 0.02) (mkVec (-0.04) (-0.26) 1.90)
              (fst (Upright.strip_frame
                      (mkVec (-0.04) (-0.26) 0.02) (mkVec (-0.04) (-0.26) 1.90)
                      0.012 0.008))
              (snd (Upright.strip_frame
                      (mkVec (-0.04) (-0.26) 0.02) (mkVec (-0.04) (-0.26) 1.90)
                      0.012 0.008))
    /\ faces bm' = faces BMesh.new ++ strip_box_faces (List.length (verts BMesh.new))
    /\ faces_in_range bm'.
Proof.
  apply (add_strip_appends_box (mkVec (-0.04) (-0.26) 0.02)
           (mkVec (-0.04) (-0.26) 1.90) 0.012 0.008 BMesh.new).
  - vm_compute. reflexivity.
  - constructor.
Defined.

(** X11.  The box of a strip that passes the length test, built alone, is
    a closed surface with one orientation, and it is centred on the strip:
    the mean of its eight
    corners is the middle of the segment from p1 to p2. *)
Theorem strip_box_closed_and_centred (p1 p2 : Vec3) (w d : Q) :
  far p1 p2 = true ->
  exists m,
    BMesh.build (Upright.add_strip p1 p2 w d) = Ok m
    /\ List.length (verts m) = 8%nat
    /\ closed_oriented (faces m) = true
    /\ veq (mean (verts m)) (midpoint p1 p2).
Proof.
  intros Hfar. eexists. split.
  - unfold BMesh.build.
    rewrite (add_strip_built p1 p2 w d BMesh.new Hfar); [reflexivity | constructor].
  - split; [reflexivity |]. split; [vm_compute; reflexivity |].
    cbn [verts BMesh.new app].
    generalize (fst (Upright.strip_frame p1 p2 w d))
               (snd (Upright.strip_frame p1 p2 w d)).
    intros a b.
    unfold veq, mean, midpoint, strip_box_verts, add, sub, Qsum, Qlen.
    cbn [map fold_right vx vy vz List.length].
    change (inject_Z (Z.of_nat 8)) with 8.
    repeat split; field.
Qed.

Lemma strip_box_closed_and_centred_witness :
  exists m,
    BMesh.build (Upright.add_strip (mkVec (-0.04) (-0.26) 0.02)
                   (mkVec (-0.04) 0.26 0.02) 0.012 0.008) = Ok m
    /\ List.length (verts m) = 8%nat
    /\ closed_oriented (faces m) = true
    /\ veq (mean (verts m))
           (midpoint (mkVec (-0.04) (-0.26) 0.02) (mkVec (-0.04) 0.26 0.02)).
Proof.
  apply (strip_box_closed_and_centred (mkVec (-0.04) (-0.26) 0.02)
           (mkVec (-0.04) 0.26 0.02) 0.012 0.008).
  vm_compute. reflexivity.
Defined.

(** X12.  The loop of [create_t_molding] over any list of strips never
    fails: the mesh has eight vertices and six faces for each strip that
    passes the length test, and a strip that does not leaves no trace. *)
Theorem strips_mesh_counts (strips : list (Vec3 * Vec3)) (w d : Q) :
  exists m,
    BMesh.build (forM_ strips (fun s => Upright.add_strip (fst s) (snd s) w d)) = Ok m
    /\ List.length (verts m)
       = (8 * List.length (filter (fun s => far (fst s) (snd s)) strips))%nat
    /\ List.length (faces m)
       = (6 * List.length (filter (fun s => far (fst s) (snd s)) strips))%nat.
Proof.
  destruct (strips_loop w d strips BMesh.new) as [m [Hrun [_ [Hv Hf]]]];
    [constructor |].
  exists m. unfold BMesh.build. rewrite Hrun. repeat split; assumption.
Qed.

(** ** Trim swept along a path *)

(** X13.  The sweep of a path never fails, whatever the path (empty and
    one-point paths included) and the scene: it leaves the objects of the
    scene as they were and appends one cylinder without parent for each
    pair of consecutive waypoints that passes the length test (computed
    length not below 0.001), at the middle of the pair; the handles it
    returns are those of the new cylinders, in the order of the path, after
    the segments it was given. *)
Theorem sweep_appends_cylinders (path : list Vec3) (radius : Q)
        (segments : list handle) (s : Scene) :
  exists news act sel,
    sweep_path path radius segments s
    = Ok (segments ++ map obj_id news, mkScene (objects s ++ news) act sel)
    /\ List.length news = List.length (far_pairs path)
    /\ map obj_id news = seq (fresh (objects s)) (List.length news)
    /\ map placement news = map tube_placement (far_pairs path)
    /\ Forall (fun o => obj_parent o = None /\ obj_data o = [Prim Cylinder]) news.
Proof.
  destruct (sweep_path_objects path radius segments s)
    as [news [act [sel [Hrun [Hids [Hpl [Hall _]]]]]]].
  exists news, act, sel.
  split; [exact Hrun |].
  split; [now apply placements_length |].
  repeat split; assumption.
Qed.

(** X14.  A path with no pair of consecutive waypoints that passes the
    length test (an empty path, a single point, one point repeated) gives
    no trim: the builder returns None and the scene is exactly as
    before. *)
Theorem sweep_without_segments (path : list Vec3) (radius : Q) (s : Scene) :
  far_pairs path = [] ->
  sweep_and_join path radius s = Ok (None, s).
Proof.
  intros Hnone. unfold sweep_and_join, bind.
  destruct (sweep_path_objects path radius [] s)
    as [news [act [sel [Hrun [_ [Hpl [_ Hsame]]]]]]].
  apply placements_length in Hpl.
  rewrite Hnone in Hpl. apply length_zero_nil in Hpl. subst news.
  destruct (Hsame eq_refl) as [-> ->].
  rewrite Hrun. cbn [app map join_segments]. unfold ret.
  rewrite app_nil_r. now destruct s.
Qed.

Lemma sweep_without_segments_witness :
  sweep_and_join [mkVec 0.35 0.275 0.70; mkVec 0.35 0.275 0.70] 0.006 empty_scene
  = Ok (None, empty_scene).
Proof.
  apply (sweep_without_segments [mkVec 0.35 0.275 0.70; mkVec 0.35 0.275 0.70]
           0.006 empty_scene).
  vm_compute. reflexivity.
Defined.

(** X15.  A path with k >= 1 pairs of consecutive waypoints that pass the
    length test adds exactly one object to the scene, whatever the scene: the k
    cylinders are joined into the first of them, which is returned, named
    t-molding (with Blender's suffix when the scene has that name), has no
    parent and is the active and the only selected object; the objects of
    the scene are left as they were and no cylinder is left over. *)
Theorem sweep_joined_into_one (path : list Vec3) (radius : Q) (s : Scene) :
  far_pairs path <> [] ->
  exists o,
    sweep_and_join path radius s
    = Ok (Some (obj_id o), mkScene (objects s ++ [o]) (Some (obj_id o)) [obj_id o])
    /\ obj_id o = fresh (objects s)
    /\ obj_name o = unique_name (objects s) "t-molding"
    /\ obj_parent o = None
    /\ obj_data o = repeat (Prim Cylinder) (List.length (far_pairs path)).
Proof.
  intros Hsome. unfold sweep_and_join, bind.
  destruct (sweep_path_objects path radius [] s)
    as [news [act [sel [Hrun [Hids [Hpl [Hall _]]]]]]].
  assert (Hlen := placements_length _ _ Hpl).
  rewrite Hrun. cbn [app]. rewrite <- Hlen.
  apply join_cylinders; try assumption.
  intros ->. cbn [List.length] in Hlen. symmetry in Hlen.
  apply length_zero_nil in Hlen. contradiction.
Qed.

Lemma sweep_joined_into_one_witness :
  exists o,
    sweep_and_join Cocktail.path Cocktail.radius empty_scene
    = Ok (Some (obj_id o),
          mkScene (objects empty_scene ++ [o]) (Some (obj_id o)) [obj_id o])
    /\ obj_id o = fresh (objects empty_scene)
    /\ obj_name o = unique_name (objects empty_scene) "t-molding"
    /\ obj_parent o = None
    /\ obj_data o = repeat (Prim Cylinder) (List.length (far_pairs Cocktail.path)).
Proof.
  apply (sweep_joined_into_one Cocktail.path Cocktail.radius empty_scene).
  vm_compute. discriminate.
Defined.

(** X16.  The two paths of the LightGun trim are swept one after the other
    and joined together: with k pairs that pass the length test in the
    first path and k2 in the second, k + k2 >= 1, one object named t-molding of
    k + k2 cylinders is added and returned.  No tube bridges the end of
    the first path and the start of the second. *)
Theorem two_sweeps_joined_into_one (path path2 : list Vec3) (radius : Q) (s : Scene) :
  far_pairs path ++ far_pairs path2 <> [] ->
  exists o,
    sweep_and_join2 path path2 radius s
    = Ok (Some (obj_id o), mkScene (objects s ++ [o]) (Some (obj_id o)) [obj_id o])
    /\ obj_id o = fresh (objects s)
    /\ obj_name o = unique_name (objects s) "t-molding"
    /\ obj_parent o = None
    /\ obj_data o
       = repeat (Prim Cylinder)
           (List.length (far_pairs path) + List.length (far_pairs path2)).
Proof.
  intros Hsome. unfold sweep_and_join2.
  unfold bind at 1.
  destruct (sweep_path_objects path radius [] s)
    as [news [act [sel [Hrun [Hids [Hpl [Hall _]]]]]]].
  assert (Hlen := placements_length _ _ Hpl).
  rewrite Hrun. cbn [app]. unfold bind at 1.
  destruct (sweep_path_objects path2 radius (map obj_id news)
              (mkScene (objects s ++ news) act sel))
    as [news2 [act2 [sel2 [Hrun2 [Hids2 [Hpl2 [Hall2 _]]]]]]].
  assert (Hlen2 := placements_length _ _ Hpl2).
  rewrite Hrun2. cbn [objects] in *.
  rewrite <- map_app, <- app_assoc, <- Hlen, <- Hlen2, <- length_app.
  apply join_cylinders.
  - intros E. apply Hsome. apply app_eq_nil in E. destruct E as [-> ->].
    cbn [List.length] in Hlen, Hlen2. symmetry in Hlen, Hlen2.
    apply length_zero_nil in Hlen, Hlen2. now rewrite Hlen, Hlen2.
  - rewrite map_app, length_app, seq_app, Hids, Hids2.
    now rewrite (fresh_block _ _ Hids).
  - apply Forall_app. now split.
Qed.

Lemma two_sweeps_joined_into_one_witness :
  exists o,
    sweep_and_join2 LightGun.path LightGun.path2 LightGun.radius empty_scene
    = Ok (Some (obj_id o),
          mkScene (objects empty_scene ++ [o]) (Some (obj_id o)) [obj_id o])
    /\ obj_id o = fresh (objects empty_scene)
    /\ obj_name o = unique_name (objects empty_scene) "t-molding"
    /\ obj_parent o = None
    /\ obj_data o
       = repeat (Prim Cylinder)
           (List.length (far_pairs LightGun.path)
            + List.length (far_pairs LightGun.path2)).
Proof.
  apply (two_sweeps_joined_into_one LightGun.path LightGun.path2 LightGun.radius
           empty_scene).
  vm_compute. discriminate.
Defined.

(** ** Models made of joined parts *)

(** X17.  [create_box], [create_gun], [create_gear_shifter] and
    [create_steering_wheel] never fail, whatever the scene, and each adds
    exactly one object: the parts are joined into the first part, no part
    is left in the scene, the objects that were there are untouched.  The
    object has the name asked for (suffixed when the scene already has it)
    and no parent; it is the active object and the only selected one.  The
    box, the gun and the wheel, whose transform is applied, are left at the
    origin; the gear shifter, whose transform is not, stays at the location
    given. *)
Theorem part_builders_add_one_object (name : string) (dimensions location : Vec3)
        (s : Scene) :
  adds_one_object s name (mkVec 0 0 0) [Prim Cube]
    (create_box name dimensions location s)
  /\ adds_one_object s name (mkVec 0 0 0) [Prim Cube; Prim Cylinder; Prim Cube]
       (LightGun.create_gun name location s)
  /\ adds_one_object s name location [Prim Cylinder; Prim Cylinder; Prim UVSphere]
       (Driving.create_gear_shifter name location s)
  /\ adds_one_object s name (mkVec 0 0 0)
       [Prim Torus; Prim Cylinder; Prim Cube; Prim Cube; Prim Cube]
       (Driving.create_steering_wheel name location s).
Proof.
  unfold adds_one_object. repeat split.
  - apply create_box_run.
  - apply create_gun_run.
  - apply create_gear_shifter_run.
  - apply create_steering_wheel_run.
Qed.
